(** * NYT mini crossword statistics plot: a verification of [plot/plot.py]

    The script has two stages, [parse_data] (load, index by solve time, sort,
    filter) and [save_plot] (per-weekday 56-day rolling mean, 99th-percentile
    y-axis bound, write the figure), called in sequence from [main].

    The embedding keeps that shape.  A data frame is a list of rows in frame
    order, each row carrying its index value; a missing cell (NaN / NaT) is
    [None].  Numbers that pandas holds as floats are exact rationals here,
    kept in lowest terms; the integers of an int64 column wrap around as
    they do in numpy.  Python exceptions are values of [exn], and the
    stateful part of the program (standard output, the pyplot figure, the
    files written) is threaded through a small state-and-exception monad in
    which, as in Python, the effects performed before an exception stay. *)

From Stdlib Require Import ZArith QArith Qround String Bool List Lia.
From Stdlib Require Import Sorting.Sorted Sorting.Permutation.
From Stdlib Require Import Lqa.
Import ListNotations.

Local Open Scope string_scope.
Local Open Scope list_scope.
Local Open Scope Z_scope.

(** ** Data model *)

(** One line of the CSV file, after [pd.read_csv].  Any cell but the date,
    which is the index that line 34 replaces, may be missing. *)
Record Row := mkRow {
  date            : Z;            (* puzzle date, as a day number *)
  opened_unix     : option Z;
  solved_unix     : option Z;
  solve_time_secs : option Z;
  weekday         : option string;
  cheated         : option bool
}.

(** A row of the working frame: the row and its index value, the
    "Solved datetime" in nanoseconds since the epoch ([None] is NaT). *)
Record Rec := mkRec {
  index : option Z;
  row   : Row
}.

Definition DataFrame := list Rec.

(** Python exceptions, by class name. *)
Inductive exn := Exn (cls : string).

Definition IndexError          := Exn "IndexError".
Definition ValueError          := Exn "ValueError".
Definition OutOfBoundsDatetime := Exn "OutOfBoundsDatetime".

Definition result (A : Type) := (exn + A)%type.

Definition res_bind {A B} (r : result A) (k : A -> result B) : result B :=
  match r with
  | inl e => inl e
  | inr a => k a
  end.

(** ** [parse_data] *)

Definition NS_PER_SEC : Z := 1000000000.

(** [pd.to_datetime(x, unit="s")] on one cell: nanoseconds in a signed 64-bit
    integer whose least value is reserved for NaT; a missing cell gives NaT
    and a value out of range raises. *)
Definition to_datetime1 (s : option Z) : result (option Z) :=
  match s with
  | None => inr None
  | Some v =>
      let ns := v * NS_PER_SEC in
      if (- (2 ^ 63) <? ns) && (ns <? 2 ^ 63) then inr (Some ns)
      else inl OutOfBoundsDatetime
  end.

(** Lines 28 and 34: the index of every row becomes its solved datetime. *)
Fixpoint set_index (rows : list Row) : result DataFrame :=
  match rows with
  | [] => inr []
  | r :: rest =>
      res_bind (to_datetime1 (solved_unix r)) (fun t =>
      res_bind (set_index rest) (fun df =>
      inr (mkRec t r :: df)))
  end.

(** Order of index values used by [sort_index]: ascending, NaT last. *)
Definition index_leb (a b : option Z) : bool :=
  match a, b with
  | Some x, Some y => x <=? y
  | Some _, None => true
  | None, Some _ => false
  | None, None => true
  end.

Fixpoint sort_insert (r : Rec) (df : DataFrame) : DataFrame :=
  match df with
  | [] => [r]
  | r' :: rest =>
      if index_leb (index r) (index r') then r :: df
      else r' :: sort_insert r rest
  end.

(** [df.sort_index()].  Rows with equal index values come out in some order
    that numpy does not promise; here it is the one of an insertion sort. *)
Fixpoint sort_index (df : DataFrame) : DataFrame :=
  match df with
  | [] => []
  | r :: rest => sort_insert r (sort_index rest)
  end.

Definition WEEK_SECS : Z := 3600 * 24 * 7.

(** The value that a signed 64-bit integer holds for [z]: the arithmetic of
    numpy on int64 arrays wraps around, silently. *)
Definition wrap64 (z : Z) : Z := (z + 2 ^ 63) mod 2 ^ 64 - 2 ^ 63.

Definition present {A} (c : option A) : bool :=
  match c with
  | Some _ => true
  | None => false
  end.

(** Whether the two timestamp columns are both integer columns: [read_csv]
    types a column of integers int64 when none of its cells is missing, and
    float64 when one is. *)
Definition int64_times (rows : list Row) : bool :=
  forallb (fun r => present (solved_unix r)) rows
  && forallb (fun r => present (opened_unix r)) rows.

(** [df["solved_unix"] - df["opened_unix"] < 3600 * 24 * 7]; a comparison
    with a missing operand is false.  Between two int64 columns the
    difference is an int64 and wraps around.  When one of the columns is a
    float64 column the difference is the float nearest to the exact one, and
    it is below 604800 when the exact one is: rounding keeps the order and
    leaves the integers of that size as they are. *)
Definition solved_within_week (int_times : bool) (r : Row) : bool :=
  match solved_unix r, opened_unix r with
  | Some s, Some o =>
      (if int_times then wrap64 (s - o) else s - o) <? WEEK_SECS
  | _, _ => false
  end.

(** [df["cheated"] == False]; a missing cell is not equal to False. *)
Definition not_cheated (r : Row) : bool :=
  match cheated r with
  | Some false => true
  | _ => false
  end.

(** [df.solve_time_secs.notnull()] *)
Definition solve_time_notnull (r : Row) : bool :=
  match solve_time_secs r with
  | Some _ => true
  | None => false
  end.

(** The boolean mask of lines 41-45, for the type of the timestamp
    columns of the frame. *)
Definition keep (int_times : bool) (r : Rec) : bool :=
  solved_within_week int_times (row r) && not_cheated (row r)
  && solve_time_notnull (row r).

(** [parse_data], after [pd.read_csv] has produced the rows.  Sorting and
    filtering leave the types of the columns as [read_csv] set them. *)
Definition parse_rows (rows : list Row) : result DataFrame :=
  res_bind (set_index rows) (fun df =>
  let df := sort_index df in
  inr (filter (keep (int64_times rows)) df)).

(** ** Rolling mean over a 56-day window *)

(** The offset ["56D"] in nanoseconds. *)
Definition WINDOW_56D : Z := 56 * 86400 * NS_PER_SEC.

Fixpoint all_some {A} (l : list (option A)) : option (list A) :=
  match l with
  | [] => Some []
  | None :: _ => None
  | Some x :: rest =>
      match all_some rest with
      | Some xs => Some (x :: xs)
      | None => None
      end
  end.

Fixpoint is_monotonic (leb : Z -> Z -> bool) (l : list Z) : bool :=
  match l with
  | [] => true
  | x :: rest =>
      match rest with
      | [] => true
      | y :: _ => leb x y && is_monotonic leb rest
      end
  end.

Definition is_monotonic_increasing := is_monotonic Z.leb.
Definition is_monotonic_decreasing := is_monotonic Z.geb.

(** The check that [rolling] makes for an offset window: the index has no
    NaT and is monotonic, one way or the other. *)
Definition validate_datetimelike_monotonic (idx : list (option Z)) : result (list Z) :=
  match all_some idx with
  | None => inl ValueError
  | Some ts =>
      if is_monotonic_increasing ts || is_monotonic_decreasing ts then inr ts
      else inl ValueError
  end.

Definition nthZ (l : list Z) (i : nat) : Z := nth i l 0.

(** The inner loop of the window indexer,
    [for j in range(start[i-1], i): if (index[j] - start_bound) * sign > 0:
    start[i] = j; break], with [start[i] = i] when it does not break. *)
Fixpoint advance_start (idx : list Z) (sign start_bound : Z) (j count i : nat) : nat :=
  match count with
  | O => i
  | S c =>
      if (nthZ idx j - start_bound) * sign >? 0 then j
      else advance_start idx sign start_bound (S j) c i
  end.

(** One turn of the outer loop, for a window closed on the right and not
    centred: from the bounds of row [i-1] to those of row [i]. *)
Definition window_step (idx : list Z) (sign : Z) (prev : nat * nat) (i : nat) : nat * nat :=
  let '(prev_start, prev_end) := prev in
  let end_bound := nthZ idx i in
  let start_bound := nthZ idx i - sign * WINDOW_56D in
  let s := advance_start idx sign start_bound prev_start (i - prev_start) i in
  let e := if (nthZ idx prev_end - end_bound) * sign <=? 0 then S i else prev_end in
  (s, e).

Fixpoint window_loop (idx : list Z) (sign : Z) (prev : nat * nat) (rows : list nat)
  : list (nat * nat) :=
  match rows with
  | [] => []
  | i :: rest =>
      let b := window_step idx sign prev i in
      b :: window_loop idx sign b rest
  end.

(** pandas' [calculate_variable_window_bounds]: for every row the half-open
    range [start, end) of row positions that make its window. *)
Definition calculate_variable_window_bounds (idx : list Z) : list (nat * nat) :=
  match idx with
  | [] => []
  | _ :: _ =>
      let n := length idx in
      let sign := if nthZ idx (n - 1) <? nthZ idx 0 then -1 else 1 in
      (0%nat, 1%nat) :: window_loop idx sign (0%nat, 1%nat) (seq 1 (n - 1))
  end.

Definition slice {A} (s e : nat) (l : list A) : list A := firstn (e - s) (skipn s l).

(** The cells that are not missing. *)
Fixpoint observed (l : list (option Z)) : list Z :=
  match l with
  | [] => []
  | Some v :: rest => v :: observed rest
  | None :: rest => observed rest
  end.

Definition sumZ (l : list Z) : Z := fold_right Z.add 0 l.

(** Mean of the observations of a window; with no observation (fewer than
    [min_periods = 1]) the result is NaN. *)
Definition mean (obs : list Z) : option Q :=
  match obs with
  | [] => None
  | _ :: _ => Some (Qred (inject_Z (sumZ obs) / inject_Z (Z.of_nat (length obs))))
  end.

Definition roll_mean (vals : list (option Z)) (bounds : list (nat * nat)) : list (option Q) :=
  map (fun b => mean (observed (slice (fst b) (snd b) vals))) bounds.

Definition durations (s : DataFrame) : list (option Z) :=
  map (fun r => solve_time_secs (row r)) s.

(** [s["solve_time_secs"].rolling("56D").mean()]: a series on the index
    of [s]. *)
Definition rolling_56D_mean (s : DataFrame) : result (list (Z * option Q)) :=
  res_bind (validate_datetimelike_monotonic (map index s)) (fun idx =>
  inr (combine idx (roll_mean (durations s) (calculate_variable_window_bounds idx)))).

(** ** Quantile *)

Fixpoint insert_value (v : Z) (l : list Z) : list Z :=
  match l with
  | [] => [v]
  | x :: rest => if v <=? x then v :: l else x :: insert_value v rest
  end.

Fixpoint sort_values (l : list Z) : list Z :=
  match l with
  | [] => []
  | v :: rest => insert_value v (sort_values rest)
  end.

(** [Series.quantile(num / 100)] with linear interpolation between the two
    nearest order statistics; missing cells are skipped and an empty series
    gives NaN. *)
Definition quantile (num : Z) (vals : list (option Z)) : option Q :=
  match observed vals with
  | [] => None
  | obs =>
      let sorted := sort_values obs in
      let n := Z.of_nat (length sorted) in
      let pos := num * (n - 1) in
      let lo := Z.to_nat (pos / 100) in
      let hi := Nat.min (S lo) (length sorted - 1) in
      let gamma := (pos mod 100) # 100 in
      let a := inject_Z (nthZ sorted lo) in
      let b := inject_Z (nthZ sorted hi) in
      Some (Qred (a + gamma * (b - a)))
  end.

(** Seconds to minutes. *)
Definition div60 (q : Q) : Q := Qred (q / 60).

(** Two cells of the weekday column that [unique] takes for one value:
    the same string, or both missing. *)
Definition same_day (a b : option string) : bool :=
  match a, b with
  | Some x, Some y => String.eqb x y
  | None, None => true
  | _, _ => false
  end.

(** [Series.unique()]: the distinct values in order of first appearance,
    the missing value among them if a cell is missing. *)
Fixpoint unique (l : list (option string)) : list (option string) :=
  match l with
  | [] => []
  | x :: rest => x :: filter (fun y => negb (same_day y x)) (unique rest)
  end.

(** [np.arange(0, stop, step)]; a NaN [stop] raises. *)
Definition arange0 (stop : option Q) (step : Z) : result (list Q) :=
  match stop with
  | None => inl ValueError
  | Some s =>
      let len := Z.to_nat (Qceiling (s / inject_Z step)) in
      inr (map (fun k => inject_Z (step * Z.of_nat k)) (seq 0 len))
  end.

(** ** The program state and its monad *)

(** One plotted line: its legend label, the weekday that the loop passes
    as [label=day] ([None] when that is the missing value), and its points,
    x the solved datetime and y a number of minutes (or NaN). *)
Record Line := mkLine {
  label  : option string;
  points : list (Z * option Q)
}.

(** What the script sets on the pyplot figure and its axes. *)
Record Figure := mkFigure {
  figsize      : Z * Z;
  dpi          : Z;
  title        : string;
  lines        : list Line;
  legend       : bool;
  xlabel       : string;
  ylabel       : string;
  ylim         : option (Q * Q);
  minor_yticks : list Q;
  grid         : bool
}.

Definition new_figure (size : Z * Z) (d : Z) : Figure :=
  mkFigure size d "" [] false "" "" None [] false.

(** What a write leaves at a path: the image of a figure, or what a write
    that failed half-way left there. *)
Inductive FileContent :=
  | Image (f : Figure)
  | Truncated.

Record World := mkWorld {
  style  : string;                      (* seaborn style *)
  stdout : list string;                 (* lines printed, oldest first *)
  figure : Figure;                      (* the current figure *)
  disk   : list (string * FileContent)  (* files written, newest first *)
}.

(** What is outside the program: the CSV reader on a path; the error, if
    any, that writing a figure to a path meets (bad path, unsupported
    extension, failure while encoding); and whether a write that fails at
    that path has by then created or truncated the file. *)
Record Env := mkEnv {
  read_csv       : string -> result (list Row);
  savefig_error  : string -> option exn;
  savefig_leaves : string -> bool
}.

Definition M (A : Type) := World -> result A * World.

Definition ret {A} (a : A) : M A := fun w => (inr a, w).

Definition raise {A} (e : exn) : M A := fun w => (inl e, w).

Definition bind {A B} (m : M A) (k : A -> M B) : M B :=
  fun w =>
    match m w with
    | (inl e, w') => (inl e, w')
    | (inr a, w') => k a w'
    end.

Definition lift {A} (r : result A) : M A := fun w => (r, w).

(** [try: body / except: handler], a bare [except] that takes any exception. *)
Definition try_except {A} (body handler : M A) : M A :=
  fun w =>
    match body w with
    | (inl _, w') => handler w'
    | (inr a, w') => (inr a, w')
    end.

Declare Scope monad_scope.
Delimit Scope monad_scope with monad.
Notation "x <- m ;; k" := (bind m (fun x => k))
  (at level 61, m at next level, right associativity) : monad_scope.
Notation "m ;;; k" := (bind m (fun _ => k))
  (at level 61, right associativity) : monad_scope.
Local Open Scope monad_scope.

Definition modify_figure (f : Figure -> Figure) : M unit :=
  fun w => (inr tt, mkWorld (style w) (stdout w) (f (figure w)) (disk w)).

Fixpoint for_each {A} (l : list A) (body : A -> M unit) : M unit :=
  match l with
  | [] => ret tt
  | x :: rest => body x ;;; for_each rest body
  end.

(** *** pyplot and seaborn calls *)

Definition sns_set_style (s : string) : M unit :=
  fun w => (inr tt, mkWorld s (stdout w) (figure w) (disk w)).

Definition print (s : string) : M unit :=
  fun w => (inr tt, mkWorld (style w) (stdout w ++ [s]) (figure w) (disk w)).

Definition plt_figure (size : Z * Z) (d : Z) : M unit :=
  modify_figure (fun _ => new_figure size d).

Definition plt_title (s : string) : M unit :=
  modify_figure (fun f => mkFigure (figsize f) (dpi f) s (lines f) (legend f)
                            (xlabel f) (ylabel f) (ylim f) (minor_yticks f) (grid f)).

Definition plot_line (l : Line) : M unit :=
  modify_figure (fun f => mkFigure (figsize f) (dpi f) (title f) (lines f ++ [l]) (legend f)
                            (xlabel f) (ylabel f) (ylim f) (minor_yticks f) (grid f)).

Definition plt_legend : M unit :=
  modify_figure (fun f => mkFigure (figsize f) (dpi f) (title f) (lines f) true
                            (xlabel f) (ylabel f) (ylim f) (minor_yticks f) (grid f)).

Definition set_xlabel (s : string) : M unit :=
  modify_figure (fun f => mkFigure (figsize f) (dpi f) (title f) (lines f) (legend f)
                            s (ylabel f) (ylim f) (minor_yticks f) (grid f)).

Definition set_ylabel (s : string) : M unit :=
  modify_figure (fun f => mkFigure (figsize f) (dpi f) (title f) (lines f) (legend f)
                            (xlabel f) s (ylim f) (minor_yticks f) (grid f)).

(** The limits that [ax.set_ylim(0, top)] sets: 0 and [top], in this
    order also when [top] is negative; identical limits are moved apart by
    0.05 on each side.  (A [top] that is not 0 is a multiple of 1/6000 here,
    far from the sizes at which matplotlib takes an interval for a point.) *)
Definition limits0 (top : Q) : Q * Q :=
  if Qeq_bool top 0 then (- (1 # 20), 1 # 20)%Q else (0%Q, top).

(** [ax.set_ylim(0, top)]; a NaN limit raises. *)
Definition set_ylim0 (top : option Q) : M unit :=
  match top with
  | None => raise ValueError
  | Some t =>
      modify_figure (fun f => mkFigure (figsize f) (dpi f) (title f) (lines f) (legend f)
                                (xlabel f) (ylabel f) (Some (limits0 t)) (minor_yticks f)
                                (grid f))
  end.

Definition qmin (a b : Q) : Q := if Qle_bool a b then a else b.
Definition qmax (a b : Q) : Q := if Qle_bool a b then b else a.

(** The view limits after ticks are set on the axis: they are widened, never
    narrowed, to hold the least and the greatest tick, and an axis that runs
    downwards keeps doing so. *)
Definition widen (lim : Q * Q) (ticks : list Q) : Q * Q :=
  match ticks with
  | [] => lim
  | t :: rest =>
      let tmin := fold_right qmin t rest in
      let tmax := fold_right qmax t rest in
      if negb (Qle_bool (snd lim) (fst lim))
      then (qmin tmin (fst lim), qmax tmax (snd lim))
      else (qmax tmax (fst lim), qmin tmin (snd lim))
  end.

(** [ax.set_yticks(ticks, minor=True)]: the ticks are set and the limits
    of the axis widened to hold them (limits that were never set stay
    automatic). *)
Definition set_minor_yticks (ticks : list Q) : M unit :=
  modify_figure (fun f => mkFigure (figsize f) (dpi f) (title f) (lines f) (legend f)
                            (xlabel f) (ylabel f)
                            (option_map (fun lim => widen lim ticks) (ylim f))
                            ticks (grid f)).

Definition plt_grid : M unit :=
  modify_figure (fun f => mkFigure (figsize f) (dpi f) (title f) (lines f) (legend f)
                            (xlabel f) (ylabel f) (ylim f) (minor_yticks f) true).

Definition write_file (w : World) (path : string) (c : FileContent) : World :=
  mkWorld (style w) (stdout w) (figure w) ((path, c) :: disk w).

(** [plt.savefig(out_path)]: the image of the current figure is written,
    or the write fails, with or without a file left behind. *)
Definition plt_savefig (env : Env) (out_path : string) : M unit :=
  fun w =>
    match savefig_error env out_path with
    | Some e =>
        (inl e, if savefig_leaves env out_path then write_file w out_path Truncated else w)
    | None => (inr tt, write_file w out_path (Image (figure w)))
    end.

(** ** [save_plot] *)

(** [df["weekday"] == day] on one row: a missing cell equals nothing, and
    nothing equals the missing value. *)
Definition on_day (day : option string) (r : Rec) : bool :=
  match day, weekday (row r) with
  | Some d, Some x => String.eqb x d
  | _, _ => false
  end.

(** The body of the loop of lines 59-63 for one value of the weekday
    column.  For the missing value the series is empty, and so is the line
    drawn. *)
Definition plot_day (df : DataFrame) (day : option string) : M unit :=
  let s := filter (on_day day) df in
  rolling_avg <- lift (rolling_56D_mean s) ;;
  plot_line (mkLine day (map (fun p => (fst p, option_map div60 (snd p))) rolling_avg)).

Definition save_plot (env : Env) (df : DataFrame) (out_path : string) : M unit :=
  let DAYS := unique (map (fun r => weekday (row r)) df) in
  let Y_MAX := option_map div60 (quantile 99 (durations df)) in
  plt_figure (10, 7) 200 ;;;
  plt_title "NYT crossword solve time (8-week rolling average) by date of solve" ;;;
  for_each DAYS (plot_day df) ;;;
  plt_legend ;;;
  set_xlabel "Date solved" ;;;
  set_ylabel "Minutes" ;;;
  minor <- lift (arange0 (option_map (fun y => Qred (y + 1)) Y_MAX) 5) ;;
  set_ylim0 Y_MAX ;;;
  set_minor_yticks minor ;;;
  plt_grid ;;;
  plt_savefig env out_path.

(** ** [parse_data] and [main] *)

Definition parse_data (env : Env) (csv_path : string) : M DataFrame :=
  lift (res_bind (read_csv env csv_path) parse_rows).

(** [sys.argv[i]] *)
Definition sys_argv (argv : list string) (i : nat) : M string :=
  match nth_error argv i with
  | Some a => ret a
  | None => raise IndexError
  end.

Definition usage (prog : string) : string :=
  ("Required arguments not given. Usage: " ++ prog ++ " <input_csv_file> <output_file>")%string.

Definition main (env : Env) (argv : list string) : M unit :=
  sns_set_style "ticks" ;;;
  args <- try_except
            (in_file <- sys_argv argv 1 ;;
             out_file <- sys_argv argv 2 ;;
             ret (Some (in_file, out_file)))
            (prog <- sys_argv argv 0 ;;
             print (usage prog) ;;;
             ret None) ;;
  match args with
  | None => ret tt
  | Some (in_file, out_file) =>
      df <- parse_data env in_file ;;
      save_plot env df out_file
  end.

Definition initial_world : World :=
  mkWorld "" [] (new_figure (0, 0) 0) [].

(** Running the script: the outcome of [main] and the final state. *)
Definition run (env : Env) (argv : list string) : result unit * World :=
  main env argv initial_world.

(** The exit status of the interpreter: 0 when [main] returns, 1 when an
    exception reaches the top level. *)
Definition exit_status (r : result unit) : Z :=
  match r with
  | inr _ => 0
  | inl _ => 1
  end.

(** * Specification vocabulary *)

(** The index of a row is the datetime of its solved timestamp. *)
Definition index_of_solved (r : Rec) : Prop :=
  match solved_unix (row r) with
  | Some s => index r = Some (s * NS_PER_SEC)
  | None => index r = None
  end.

Definition index_le (a b : Rec) : Prop := index_leb (index a) (index b) = true.

(** A record is in the window anchored at [T] when its solved datetime is
    in the interval (T - 56 days, T]. *)
Definition in_window (T : Z) (r : Rec) : bool :=
  match index r with
  | Some t => (T - WINDOW_56D <? t) && (t <=? T)
  | None => false
  end.

(** The arithmetic mean of the solve durations of the records of the series
    [s] that are in the window anchored at [T]. *)
Definition window_mean (s : DataFrame) (T : Z) : option Q :=
  mean (observed (durations (filter (in_window T) s))).

(** The rolling mean read as a mean over the whole series: every value of
    the rolling series is the window mean at its own datetime. *)
Definition rolling_is_window_mean (s : DataFrame) : Prop :=
  forall pts i T m,
    rolling_56D_mean s = inr pts ->
    nth_error pts i = Some (T, m) ->
    m = window_mean s T.

(** The start of the window of row [i] of a sorted index: the first row
    whose datetime is later than that of row [i] less 56 days. *)
Definition start_ok (ts : list Z) (i st : nat) : Prop :=
  (st <= i)%nat /\
  (forall k, (k < st)%nat -> nthZ ts k <= nthZ ts i - WINDOW_56D) /\
  nthZ ts i - WINDOW_56D < nthZ ts st.

Definition bound_ok (ts : list Z) (i : nat) (b : nat * nat) : Prop :=
  (i < length ts)%nat /\ snd b = S i /\ start_ok ts i (fst b).

(** The line that the loop of [save_plot] draws for one value of the
    weekday column. *)
Definition day_line (df : DataFrame) (day : option string) : Line :=
  mkLine day
    match rolling_56D_mean (filter (on_day day) df) with
    | inr pts => map (fun p => (fst p, option_map div60 (snd p))) pts
    | inl _ => []
    end.

Definition add_lines (f : Figure) (ls : list Line) : Figure :=
  mkFigure (figsize f) (dpi f) (title f) (lines f ++ ls) (legend f)
           (xlabel f) (ylabel f) (ylim f) (minor_yticks f) (grid f).

Definition with_figure (w : World) (f : Figure) : World :=
  mkWorld (style w) (stdout w) f (disk w).

(** The figure when [save_plot] stops at the y-axis for want of a bound. *)
Definition unbounded_figure (df : DataFrame) : Figure :=
  mkFigure (10, 7) 200
    "NYT crossword solve time (8-week rolling average) by date of solve"
    (map (day_line df) (unique (map (fun r => weekday (row r)) df)))
    true "Date solved" "Minutes" None [] false.

(** The minor ticks of line 68, for a 99th percentile [q] of the
    durations. *)
Definition minor_ticks (q : Q) : list Q :=
  match arange0 (Some (Qred (div60 q + 1))) 5 with
  | inr ticks => ticks
  | inl _ => []
  end.

(** The finished figure, for a 99th percentile [q] of the durations. *)
Definition rendered_figure (df : DataFrame) (q : Q) : Figure :=
  mkFigure (10, 7) 200
    "NYT crossword solve time (8-week rolling average) by date of solve"
    (map (day_line df) (unique (map (fun r => weekday (row r)) df)))
    true "Date solved" "Minutes"
    (Some (widen (limits0 (div60 q)) (minor_ticks q)))
    (minor_ticks q)
    true.

(** The state in which [main] calls the loader and the renderer. *)
Definition styled_world : World :=
  mkWorld "ticks" [] (figure initial_world) [].

(** The failures of a run that has its two arguments: the reader fails on
    the input file (not found, malformed), a solved timestamp does not fit a
    datetime, the durations give no bound for the y-axis, or the figure
    cannot be written (bad path, unsupported extension). *)
Inductive failure (env : Env) (in_file out_file : string) : exn -> Prop :=
  | read_failure e :
      read_csv env in_file = inl e ->
      failure env in_file out_file e
  | datetime_failure rows e :
      read_csv env in_file = inr rows ->
      parse_rows rows = inl e ->
      failure env in_file out_file e
  | bound_failure rows df :
      read_csv env in_file = inr rows ->
      parse_rows rows = inr df ->
      quantile 99 (durations df) = None ->
      failure env in_file out_file ValueError
  | write_failure rows df q e :
      read_csv env in_file = inr rows ->
      parse_rows rows = inr df ->
      quantile 99 (durations df) = Some q ->
      savefig_error env out_file = Some e ->
      failure env in_file out_file e.

(** The mask of lines 41-45 as a condition on a row of the file, for the
    type of the timestamp columns. *)
Definition keep_row (int_times : bool) (r : Row) : bool :=
  solved_within_week int_times r && not_cheated r && solve_time_notnull r.

(** The solved timestamp of a row, when there is one, fits a datetime. *)
Definition datetime_in_range (r : Row) : Prop :=
  match solved_unix r with
  | Some s => - (2 ^ 63) < s * NS_PER_SEC < 2 ^ 63
  | None => True
  end.

(** A computation that touches the figure at most: whatever its outcome,
    it leaves the style, the standard output and the files as they were. *)
Definition figure_only {A} (m : M A) : Prop :=
  forall w,
    style (snd (m w)) = style w /\
    stdout (snd (m w)) = stdout w /\
    disk (snd (m w)) = disk w.

(** A computation that, besides the figure, does one thing: when it
    returns it has written the image of the figure to [out_path], on top of
    the files that were there; when it raises it has written nothing, or
    left a truncated file at [out_path] and no other. *)
Definition writes_on_return (out_path : string) (m : M unit) : Prop :=
  forall w,
    style (snd (m w)) = style w /\
    stdout (snd (m w)) = stdout w /\
    match fst (m w) with
    | inr _ => disk (snd (m w)) = (out_path, Image (figure (snd (m w)))) :: disk w
    | inl _ =>
        disk (snd (m w)) = disk w \/
        disk (snd (m w)) = (out_path, Truncated) :: disk w
    end.

(** A record that has a weekday. *)
Definition has_weekday (r : Rec) : bool := present (weekday (row r)).

(** * Sample inputs *)

(** Two Saturday puzzles solved unaided within the week, and three rows that
    the filter drops: one solved with help, one solved 700000 seconds after
    it was opened, one never solved. *)
Definition row_sat1 : Row :=
  mkRow 19000 (Some 1641600000) (Some 1641600300) (Some 300) (Some "Sat") (Some false).
Definition row_sat2 : Row :=
  mkRow 18993 (Some 1641000000) (Some 1641000240) (Some 240) (Some "Sat") (Some false).
Definition row_cheat : Row :=
  mkRow 19001 (Some 1641700000) (Some 1641700100) (Some 100) (Some "Sun") (Some true).
Definition row_late : Row :=
  mkRow 19002 (Some 1641700000) (Some 1642400000) (Some 90) (Some "Mon") (Some false).
Definition row_open : Row :=
  mkRow 19003 (Some 1641800000) None None (Some "Tue") None.

Definition sample_rows : list Row :=
  [row_sat1; row_sat2; row_cheat; row_late; row_open].

Definition sample_env : Env :=
  mkEnv (fun _ => inr sample_rows) (fun _ => None) (fun _ => false).

Definition rec_sat1 : Rec := mkRec (Some 1641600300000000000) row_sat1.
Definition rec_sat2 : Rec := mkRec (Some 1641000240000000000) row_sat2.

(** What the loader makes of [sample_rows]. *)
Definition sample_df : DataFrame := [rec_sat2; rec_sat1].

(** Two Monday puzzles with the same solved timestamp. *)
Definition tie_rows : list Row :=
  [mkRow 19002 (Some 1641700000) (Some 1641700100) (Some 100) (Some "Mon") (Some false);
   mkRow 18995 (Some 1641699000) (Some 1641700100) (Some 200) (Some "Mon") (Some false)].

(** A file of which no row passes the filter. *)
Definition dropped_env : Env :=
  mkEnv (fun _ => inr [row_cheat; row_late; row_open]) (fun _ => None) (fun _ => false).

(** A file of one row. *)
Definition single_env : Env :=
  mkEnv (fun _ => inr [row_sat1]) (fun _ => None) (fun _ => false).

(** No input file. *)
Definition missing_env : Env :=
  mkEnv (fun _ => inl (Exn "FileNotFoundError")) (fun _ => None) (fun _ => false).

(** A file with a solved timestamp beyond the year 2262, in a row that the
    filter would drop. *)
Definition far_rows : list Row :=
  [row_sat1;
   mkRow 19001 (Some 1641700000) (Some 9300000000) (Some 100) (Some "Sun") (Some true)].

Definition far_env : Env := mkEnv (fun _ => inr far_rows) (fun _ => None) (fun _ => false).

(** A file of one row, opened long before the epoch as far as its cells
    go: both timestamp columns are integer columns and the difference of the
    two cells does not fit 64 bits. *)
Definition row_wrap : Row :=
  mkRow 19000 (Some (-9223372036854775000)) (Some 1641600300) (Some 300)
        (Some "Sat") (Some false).

Definition wrap_env : Env :=
  mkEnv (fun _ => inr [row_wrap]) (fun _ => None) (fun _ => false).

(** A file of one row that has no weekday. *)
Definition row_noday : Row :=
  mkRow 19000 (Some 1641600000) (Some 1641600300) (Some 300) None (Some false).

Definition noday_env : Env :=
  mkEnv (fun _ => inr [row_noday]) (fun _ => None) (fun _ => false).

(** * Properties of the loader *)

Lemma to_datetime1_inv s t :
  to_datetime1 s = inr t -> t = option_map (fun v => v * NS_PER_SEC) s.
Proof.
  unfold to_datetime1. destruct s as [v|]; simpl.
  - destruct (_ && _); congruence.
  - congruence.
Qed.

Lemma set_index_index rows : forall df,
  set_index rows = inr df -> Forall index_of_solved df.
Proof.
  induction rows as [|r rest IH]; simpl; intros df H.
  - inversion H. constructor.
  - destruct (to_datetime1 (solved_unix r)) as [e|t] eqn:Ht; simpl in H; [discriminate|].
    destruct (set_index rest) as [e|df'] eqn:Hrest; simpl in H; [discriminate|].
    inversion H; subst. constructor; [|now apply IH].
    apply to_datetime1_inv in Ht. unfold index_of_solved; simpl.
    destruct (solved_unix r); simpl in Ht; assumption.
Qed.

Lemma set_index_rows rows : forall df,
  set_index rows = inr df -> map row df = rows.
Proof.
  induction rows as [|r rest IH]; simpl; intros df H.
  - inversion H. reflexivity.
  - destruct (to_datetime1 (solved_unix r)); simpl in H; [discriminate|].
    destruct (set_index rest) as [e|df'] eqn:Hrest; simpl in H; [discriminate|].
    inversion H; subst. simpl. f_equal. now apply IH.
Qed.

(** The loader does return a frame when every solved timestamp fits a
    nanosecond datetime. *)
Lemma set_index_total rows :
  Forall (fun r => match solved_unix r with
                   | Some s => - (2 ^ 63) < s * NS_PER_SEC < 2 ^ 63
                   | None => True
                   end) rows ->
  exists df, set_index rows = inr df.
Proof.
  induction 1 as [|r rest Hr _ [df IH]]; simpl.
  - now exists [].
  - unfold to_datetime1. destruct (solved_unix r) as [s|]; cbv zeta.
    + destruct Hr as [Hlo Hhi].
      apply Z.ltb_lt in Hlo. apply Z.ltb_lt in Hhi.
      rewrite Hlo, Hhi. cbn [andb res_bind]. rewrite IH. cbn [res_bind]. eauto.
    + cbn [res_bind]. rewrite IH. cbn [res_bind]. eauto.
Qed.

Lemma index_leb_total a b : index_leb a b = false -> index_leb b a = true.
Proof.
  destruct a, b; simpl; intros H; try reflexivity; try discriminate.
  apply Z.leb_gt in H. apply Z.leb_le. lia.
Qed.

Lemma index_leb_trans a b c :
  index_leb a b = true -> index_leb b c = true -> index_leb a c = true.
Proof.
  destruct a, b, c; simpl; intros H1 H2; try reflexivity; try discriminate.
  apply Z.leb_le in H1. apply Z.leb_le in H2. apply Z.leb_le. lia.
Qed.

Lemma sort_insert_Forall (P : Rec -> Prop) r df :
  P r -> Forall P df -> Forall P (sort_insert r df).
Proof.
  intros Hr. induction 1 as [|r' rest Hr' Hrest IH]; simpl.
  - repeat constructor; assumption.
  - destruct (index_leb (index r) (index r')); repeat constructor; assumption.
Qed.

Lemma sort_index_Forall (P : Rec -> Prop) df :
  Forall P df -> Forall P (sort_index df).
Proof.
  induction 1; simpl; [constructor|]. now apply sort_insert_Forall.
Qed.

Lemma sort_insert_sorted r df :
  StronglySorted index_le df -> StronglySorted index_le (sort_insert r df).
Proof.
  induction 1 as [|r' rest Hs IH Hall]; simpl.
  - repeat constructor.
  - destruct (index_leb (index r) (index r')) eqn:E.
    + constructor; [constructor; assumption|].
      constructor; [exact E|].
      eapply Forall_impl; [|exact Hall].
      intros x Hx. unfold index_le in *. eapply index_leb_trans; eassumption.
    + constructor; [exact IH|].
      apply sort_insert_Forall; [|exact Hall].
      apply index_leb_total. exact E.
Qed.

Lemma sort_index_sorted df : StronglySorted index_le (sort_index df).
Proof.
  induction df; simpl; [constructor|]. now apply sort_insert_sorted.
Qed.

Lemma sort_insert_perm r df : Permutation (r :: df) (sort_insert r df).
Proof.
  induction df as [|r' rest IH]; simpl; [reflexivity|].
  destruct (index_leb (index r) (index r')); [reflexivity|].
  rewrite perm_swap. now constructor.
Qed.

Lemma sort_index_perm df : Permutation df (sort_index df).
Proof.
  induction df as [|r rest IH]; simpl; [constructor|].
  rewrite <- sort_insert_perm. now constructor.
Qed.

Lemma filter_sorted {A} (R : A -> A -> Prop) (p : A -> bool) l :
  StronglySorted R l -> StronglySorted R (filter p l).
Proof.
  induction 1 as [|x l Hs IH Hall]; simpl; [constructor|].
  destruct (p x); [|exact IH].
  constructor; [exact IH|].
  apply Forall_forall. intros y Hy. apply filter_In in Hy.
  rewrite Forall_forall in Hall. apply Hall. tauto.
Qed.

Lemma wrap64_small z : - 2 ^ 63 <= z < 2 ^ 63 -> wrap64 z = z.
Proof.
  intros H. unfold wrap64.
  assert (E : 2 ^ 64 = 2 * 2 ^ 63) by reflexivity.
  rewrite Z.mod_small; lia.
Qed.

Lemma keep_inv a r :
  keep a r = true ->
  cheated (row r) = Some false /\
  (exists d, solve_time_secs (row r) = Some d) /\
  (exists s o, solved_unix (row r) = Some s /\ opened_unix (row r) = Some o /\
               (if a then wrap64 (s - o) else s - o) < 604800).
Proof.
  unfold keep, solved_within_week, not_cheated, solve_time_notnull.
  intros H. apply andb_prop in H as [H H3]. apply andb_prop in H as [H1 H2].
  repeat split.
  - destruct (cheated (row r)) as [[|]|]; congruence.
  - destruct (solve_time_secs (row r)) as [d|]; [eauto|discriminate].
  - destruct (solved_unix (row r)) as [s|]; [|discriminate].
    destruct (opened_unix (row r)) as [o|]; [|discriminate].
    exists s, o. repeat split. apply Z.ltb_lt in H1. exact H1.
Qed.

(** What [parse_rows] returns, in one place: the kept rows of the sorted
    frame, sorted by index, each indexed by its solved datetime. *)
Lemma parse_rows_inv rows df :
  parse_rows rows = inr df ->
  exists df0, set_index rows = inr df0 /\
              df = filter (keep (int64_times rows)) (sort_index df0) /\
              StronglySorted index_le df /\ Forall index_of_solved df /\
              Forall (fun r => keep (int64_times rows) r = true) df.
Proof.
  unfold parse_rows. intros H.
  destruct (set_index rows) as [e|df0] eqn:E; simpl in H; [discriminate|].
  inversion H; subst. exists df0. repeat split.
  - apply filter_sorted, sort_index_sorted.
  - apply Forall_forall. intros r Hr. apply filter_In in Hr as [Hr _].
    pose proof (sort_index_Forall _ _ (set_index_index _ _ E)) as HF.
    rewrite Forall_forall in HF. now apply HF.
  - apply Forall_forall. intros r Hr. now apply filter_In in Hr.
Qed.

Lemma parse_data_inv env csv_path w df w' :
  parse_data env csv_path w = (inr df, w') ->
  w' = w /\ exists rows, read_csv env csv_path = inr rows /\ parse_rows rows = inr df.
Proof.
  unfold parse_data, lift. intros H. inversion H; subst. split; [reflexivity|].
  destruct (read_csv env csv_path) as [e|rows]; simpl in *; [discriminate|].
  now exists rows.
Qed.

Lemma kept_index a r :
  keep a r = true -> index_of_solved r ->
  exists s, solved_unix (row r) = Some s /\ index r = Some (s * NS_PER_SEC).
Proof.
  intros Hk Hi. apply keep_inv in Hk as (_ & _ & s & o & Hs & _ & _).
  unfold index_of_solved in Hi. rewrite Hs in Hi. eauto.
Qed.

(** A frame sorted by index whose index has no NaT is a frame whose
    timestamps are sorted as integers. *)
Lemma sorted_timestamps df :
  StronglySorted index_le df ->
  Forall (fun r => exists t, index r = Some t) df ->
  exists ts, map index df = map Some ts /\ StronglySorted Z.le ts.
Proof.
  induction 1 as [|r rest Hs IH Hall]; intros HF.
  - exists []. split; [reflexivity|constructor].
  - inversion HF as [|? ? [t Ht] HF']; subst.
    destruct (IH HF') as (ts & Hmap & Hsorted).
    exists (t :: ts). split; [simpl; now rewrite Ht, Hmap|].
    constructor; [exact Hsorted|].
    apply Forall_forall. intros t' Hin.
    assert (Hin' : In (Some t') (map index rest)) by (rewrite Hmap; now apply in_map).
    apply in_map_iff in Hin' as (r' & Hr' & Hin').
    rewrite Forall_forall in Hall. specialize (Hall r' Hin').
    unfold index_le in Hall. rewrite Ht, Hr' in Hall. simpl in Hall.
    now apply Z.leb_le.
Qed.

Lemma parse_rows_timestamps rows df :
  parse_rows rows = inr df ->
  exists ts, map index df = map Some ts /\ StronglySorted Z.le ts.
Proof.
  intros H. apply parse_rows_inv in H as (df0 & _ & _ & Hs & Hi & Hk).
  apply sorted_timestamps; [exact Hs|].
  rewrite Forall_forall in *. intros r Hr.
  destruct (kept_index _ r (Hk r Hr) (Hi r Hr)) as (s & _ & Hidx). eauto.
Qed.

Lemma parse_data_kept env csv_path w df w' r :
  parse_data env csv_path w = (inr df, w') -> In r df ->
  exists rows, read_csv env csv_path = inr rows /\ keep (int64_times rows) r = true.
Proof.
  intros H Hin. apply parse_data_inv in H as (_ & rows & Hread & H).
  apply parse_rows_inv in H as (_ & _ & _ & _ & _ & Hk).
  rewrite Forall_forall in Hk. exists rows. split; [exact Hread|]. now apply Hk.
Qed.

(** C2 does not hold of the code.  A row opened at
    -9223372036854775000 and solved at 1641600300, alone in its file, is in
    the loader's output, although it was solved far more than 604800 seconds
    after it was opened: the difference of the two int64 cells wraps around
    to a negative number. *)
Theorem loader_keeps_wrapped_gap :
  parse_data wrap_env "in.csv" initial_world
  = (inr [mkRec (Some 1641600300000000000) row_wrap], initial_world) /\
  solved_unix row_wrap = Some 1641600300 /\
  opened_unix row_wrap = Some (-9223372036854775000) /\
  ~ (1641600300 - -9223372036854775000 < 604800) /\
  wrap64 (1641600300 - -9223372036854775000) = -9223372035213176316.
Proof.
  split; [vm_compute; reflexivity|]. split; [reflexivity|]. split; [reflexivity|].
  split; [lia|vm_compute; reflexivity].
Qed.

(** C3.  The records that the loader returns are in non-decreasing order of
    solved-at datetime, the datetime being the one built from the solved
    timestamp of each record (the filter comes after the sort and keeps the
    order). *)
Theorem loader_output_sorted env csv_path w df w' :
  parse_data env csv_path w = (inr df, w') ->
  exists ts,
    map index df = map Some ts /\
    StronglySorted Z.le ts /\
    Forall (fun r => exists s, solved_unix (row r) = Some s /\
                               index r = Some (s * NS_PER_SEC)) df.
Proof.
  intros H. apply parse_data_inv in H as (_ & rows & _ & H).
  destruct (parse_rows_timestamps _ _ H) as (ts & Hmap & Hsorted).
  exists ts. repeat split; try assumption.
  apply parse_rows_inv in H as (_ & _ & _ & _ & Hi & Hk).
  rewrite Forall_forall in *. intros r Hr.
  apply (kept_index (int64_times rows)); auto.
Qed.

Lemma loader_output_sorted_witness :
  exists ts,
    map index sample_df = map Some ts /\
    StronglySorted Z.le ts /\
    Forall (fun r => exists s, solved_unix (row r) = Some s /\
                               index r = Some (s * NS_PER_SEC)) sample_df.
Proof.
  apply (loader_output_sorted sample_env "in.csv" initial_world sample_df initial_world).
  reflexivity.
Defined.

(** C9.  A record whose [cheated] cell is missing is not in the loader's
    output: the mask keeps only the records whose flag equals False. *)
Theorem missing_cheated_excluded env csv_path w df w' r :
  parse_data env csv_path w = (inr df, w') ->
  cheated (row r) = None ->
  ~ In r df.
Proof.
  intros H Hnone Hin.
  destruct (parse_data_kept _ _ _ _ _ _ H Hin) as (rows & _ & Hk).
  apply keep_inv in Hk as [Hc _]. congruence.
Qed.

Lemma missing_cheated_excluded_witness : ~ In (mkRec None row_open) sample_df.
Proof.
  apply (missing_cheated_excluded sample_env "in.csv" initial_world sample_df
           initial_world (mkRec None row_open)); reflexivity.
Defined.

(** C10.  The loader's filter is idempotent: filtering an already filtered
    frame returns it as it is, same rows in the same order, whether the
    timestamp columns of the frame are integer or float columns. *)
Theorem filter_idempotent (int_times : bool) (df : DataFrame) :
  filter (keep int_times) (filter (keep int_times) df) = filter (keep int_times) df.
Proof.
  induction df as [|r rest IH]; simpl; [reflexivity|].
  destruct (keep int_times r) eqn:E; simpl; [rewrite E; f_equal|]; exact IH.
Qed.

(** * Properties of the rolling mean *)

Lemma window_pos : 0 < WINDOW_56D.
Proof. reflexivity. Qed.

Lemma all_some_map_Some {A} (l : list A) : all_some (map Some l) = Some l.
Proof.
  induction l as [|x l IH]; simpl; [reflexivity|]. now rewrite IH.
Qed.

Lemma sorted_nth ts :
  StronglySorted Z.le ts ->
  forall k k', (k <= k')%nat -> (k' < length ts)%nat -> nthZ ts k <= nthZ ts k'.
Proof.
  unfold nthZ. induction 1 as [|t ts Hs IH Hall]; intros k k' Hle Hlt; simpl in Hlt.
  - lia.
  - destruct k' as [|k'].
    + assert (k = 0)%nat by lia. subst. simpl. lia.
    + destruct k as [|k]; simpl.
      * rewrite Forall_forall in Hall. apply Hall. apply nth_In. lia.
      * apply IH; lia.
Qed.

Lemma sorted_monotonic ts :
  StronglySorted Z.le ts -> is_monotonic_increasing ts = true.
Proof.
  unfold is_monotonic_increasing.
  induction 1 as [|t ts Hs IH Hall]; simpl; [reflexivity|].
  destruct ts as [|t' ts']; [reflexivity|].
  apply andb_true_intro. split; [|exact IH].
  apply Z.leb_le. inversion Hall; assumption.
Qed.

Lemma advance_start_ok ts bound i : forall count j,
  (j + count = i)%nat ->
  (forall k, (k < j)%nat -> nthZ ts k <= bound) ->
  bound < nthZ ts i ->
  let st := advance_start ts 1 bound j count i in
  (st <= i)%nat /\ (forall k, (k < st)%nat -> nthZ ts k <= bound) /\ bound < nthZ ts st.
Proof.
  induction count as [|c IH]; intros j Hj Hbefore Hi; simpl.
  - rewrite Nat.add_0_r in Hj. subst j. repeat split; [lia|exact Hbefore|exact Hi].
  - rewrite Z.mul_1_r. destruct (nthZ ts j - bound >? 0) eqn:E.
    + rewrite Z.gtb_ltb in E. apply Z.ltb_lt in E.
      repeat split; [lia|exact Hbefore|lia].
    + rewrite Z.gtb_ltb in E. apply Z.ltb_ge in E.
      apply IH; [lia| |exact Hi].
      intros k Hk. destruct (Nat.eq_dec k j) as [->|Hne]; [lia|].
      apply Hbefore. lia.
Qed.

Lemma window_step_ok ts i ps :
  StronglySorted Z.le ts ->
  (1 <= i)%nat -> (i < length ts)%nat ->
  start_ok ts (i - 1) ps ->
  bound_ok ts i (window_step ts 1 (ps, i) i).
Proof.
  intros Hs H1 Hlt (Hps & Hbefore & _).
  pose proof window_pos as HW.
  unfold window_step. rewrite Z.sub_diag, Z.mul_0_l, Z.mul_1_l. simpl Z.leb.
  cbv iota. split; [exact Hlt|]. split; [reflexivity|]. simpl fst.
  apply advance_start_ok; [lia| |lia].
  intros k Hk. specialize (Hbefore k Hk).
  pose proof (sorted_nth ts Hs (i - 1) i) as Hmono. lia.
Qed.

Lemma window_loop_ok ts :
  StronglySorted Z.le ts ->
  forall k i0 ps,
    (1 <= i0)%nat -> (i0 + k = length ts)%nat ->
    start_ok ts (i0 - 1) ps ->
    Forall2 (bound_ok ts) (seq i0 k) (window_loop ts 1 (ps, i0) (seq i0 k)).
Proof.
  intros Hs. induction k as [|k IH]; intros i0 ps H1 Hlen Hst.
  - constructor.
  - cbn [seq window_loop]. cbv zeta.
    pose proof (window_step_ok ts i0 ps Hs H1 ltac:(lia) Hst) as Hb.
    destruct (window_step ts 1 (ps, i0) i0) as [st e] eqn:E.
    constructor; [exact Hb|].
    destruct Hb as (_ & He & Hst'). simpl in He, Hst'. subst e.
    apply IH; [lia|lia|].
    replace (S i0 - 1)%nat with i0 by lia. exact Hst'.
Qed.

(** On a sorted index the window of row [i] ends after row [i] and starts
    at the first row later than 56 days before it. *)
Lemma window_bounds_sorted ts :
  StronglySorted Z.le ts ->
  Forall2 (bound_ok ts) (seq 0 (length ts)) (calculate_variable_window_bounds ts).
Proof.
  intros Hs. pose proof window_pos as HW.
  unfold calculate_variable_window_bounds.
  destruct ts as [|t ts'] eqn:Ets; [constructor|]. rewrite <- Ets in *.
  assert (Hn : length ts = S (length ts')) by (subst; reflexivity).
  assert (Hsign : (nthZ ts (length ts - 1) <? nthZ ts 0) = false).
  { apply Z.ltb_ge. apply sorted_nth; [exact Hs|lia|lia]. }
  cbv zeta. rewrite Hsign, Hn. simpl seq. rewrite Nat.sub_0_r.
  assert (H0 : start_ok ts 0 0).
  { repeat split; [lia|intros k Hk; lia|lia]. }
  constructor.
  - split; [lia|]. split; [reflexivity|exact H0].
  - apply window_loop_ok; [exact Hs|lia|lia|exact H0].
Qed.

Lemma filter_split_at {A} (p : A -> bool) (l : list A) : forall st,
  (forall k x, (k < st)%nat -> nth_error l k = Some x -> p x = false) ->
  (forall k x, (st <= k)%nat -> nth_error l k = Some x -> p x = true) ->
  filter p l = skipn st l.
Proof.
  induction l as [|a l IH]; intros st Hlo Hhi.
  - now destruct st.
  - destruct st as [|st]; simpl.
    + rewrite (Hhi 0%nat a) by (simpl; auto with arith). f_equal.
      apply (IH 0%nat); intros k x Hk Hx; [lia|].
      apply (Hhi (S k)); [lia|exact Hx].
    + rewrite (Hlo 0%nat a) by (simpl; auto with arith).
      apply IH; intros k x Hk Hx.
      * apply (Hlo (S k)); [lia|exact Hx].
      * apply (Hhi (S k)); [lia|exact Hx].
Qed.

Lemma filter_none {A} (p : A -> bool) (l : list A) :
  (forall x, In x l -> p x = false) -> filter p l = [].
Proof.
  induction l as [|a l IH]; intros H; simpl; [reflexivity|].
  rewrite (H a) by (now left). apply IH. intros x Hx. apply H. now right.
Qed.

Lemma nth_error_combine {A B} (l : list A) (l' : list B) : forall i a b,
  nth_error l i = Some a -> nth_error l' i = Some b ->
  nth_error (combine l l') i = Some (a, b).
Proof.
  revert l'. induction l as [|x l IH]; intros l' i a b Ha Hb.
  - destruct i; discriminate.
  - destruct l' as [|y l']; [destruct i; discriminate|].
    destruct i as [|i]; simpl in *; [congruence|]. now apply IH.
Qed.

Lemma map_fst_combine {A B} (l : list A) (l' : list B) :
  length l = length l' -> map fst (combine l l') = l.
Proof.
  revert l'. induction l as [|x l IH]; intros [|y l'] H; simpl in *;
    try reflexivity; try discriminate.
  f_equal. apply IH. lia.
Qed.

(** Row [k] of a frame and entry [k] of its index. *)
Lemma index_nth s ts k r :
  map index s = map Some ts ->
  nth_error s k = Some r ->
  index r = Some (nthZ ts k) /\ (k < length ts)%nat.
Proof.
  intros Hmap Hr.
  pose proof (map_nth_error index k s Hr) as H.
  rewrite Hmap, nth_error_map in H.
  destruct (nth_error ts k) as [t|] eqn:Et; simpl in H; [|discriminate].
  split.
  - unfold nthZ. rewrite (nth_error_nth ts k 0 Et). congruence.
  - apply nth_error_Some. congruence.
Qed.

(** The rows of a window on a sorted index are the rows up to the anchor
    whose datetime is in the 56 days that end at the anchor's. *)
Lemma window_slice s ts i st :
  map index s = map Some ts ->
  StronglySorted Z.le ts ->
  (i < length ts)%nat ->
  start_ok ts i st ->
  slice st (S i) (durations s)
  = durations (filter (in_window (nthZ ts i)) (firstn (S i) s)).
Proof.
  intros Hmap Hs Hi (Hst & Hlo & Hhi).
  rewrite (filter_split_at _ (firstn (S i) s) st).
  - unfold slice, durations. now rewrite skipn_map, firstn_map, skipn_firstn_comm.
  - intros k x Hk Hx. rewrite nth_error_firstn in Hx.
    destruct (k <? S i)%nat; [|discriminate].
    destruct (index_nth _ _ _ _ Hmap Hx) as [Hidx _].
    unfold in_window. rewrite Hidx. apply andb_false_intro1.
    apply Z.ltb_ge. now apply Hlo.
  - intros k x Hk Hx. rewrite nth_error_firstn in Hx.
    destruct (k <? S i)%nat eqn:Ek; [|discriminate]. apply Nat.ltb_lt in Ek.
    destruct (index_nth _ _ _ _ Hmap Hx) as [Hidx Hlen].
    unfold in_window. rewrite Hidx. apply andb_true_intro. split.
    + apply Z.ltb_lt. pose proof (sorted_nth ts Hs st k Hk Hlen). lia.
    + apply Z.leb_le. apply sorted_nth; [exact Hs|lia|exact Hi].
Qed.

(** The rolling mean of a series with a sorted index, in closed form. *)
Lemma rolling_sorted s ts :
  map index s = map Some ts ->
  StronglySorted Z.le ts ->
  rolling_56D_mean s
  = inr (combine ts (map (fun i => window_mean (firstn (S i) s) (nthZ ts i))
                         (seq 0 (length ts)))).
Proof.
  intros Hmap Hs. unfold rolling_56D_mean, validate_datetimelike_monotonic.
  rewrite Hmap, all_some_map_Some, (sorted_monotonic ts Hs). simpl.
  do 2 f_equal. unfold roll_mean.
  pose proof (window_bounds_sorted ts Hs) as HB.
  induction HB as [|i b more bs Hb _ IH]; simpl; [reflexivity|].
  rewrite IH. f_equal.
  destruct Hb as (Hi & He & Hst). rewrite He.
  unfold window_mean. now rewrite (window_slice s ts i (fst b)).
Qed.

Lemma rolling_sorted_nth s ts i r T :
  map index s = map Some ts ->
  StronglySorted Z.le ts ->
  nth_error s i = Some r ->
  index r = Some T ->
  exists pts,
    rolling_56D_mean s = inr pts /\
    map fst pts = ts /\
    nth_error pts i = Some (T, window_mean (firstn (S i) s) T).
Proof.
  intros Hmap Hs Hr HT. eexists. split; [exact (rolling_sorted s ts Hmap Hs)|].
  destruct (index_nth _ _ _ _ Hmap Hr) as [Hidx Hlen].
  assert (T = nthZ ts i) by congruence. subst T. split.
  - apply map_fst_combine. now rewrite length_map, length_seq.
  - apply nth_error_combine.
    + unfold nthZ. apply nth_error_nth'. exact Hlen.
    + rewrite nth_error_map, nth_error_seq.
      apply Nat.ltb_lt in Hlen. rewrite Hlen. reflexivity.
Qed.

(** When no later row of the series has the datetime of row [i], the rows
    up to [i] hold every row of the window anchored there. *)
Lemma window_upto_whole s ts i :
  map index s = map Some ts ->
  StronglySorted Z.le ts ->
  (i < length ts)%nat ->
  (forall j, (i < j)%nat -> (j < length ts)%nat -> nthZ ts j <> nthZ ts i) ->
  window_mean s (nthZ ts i) = window_mean (firstn (S i) s) (nthZ ts i).
Proof.
  intros Hmap Hs Hi Hlater. unfold window_mean.
  rewrite <- (firstn_skipn (S i) s) at 1.
  rewrite filter_app, (filter_none _ (skipn (S i) s)), app_nil_r; [reflexivity|].
  intros x Hx. apply In_nth_error in Hx as [k Hk]. rewrite nth_error_skipn in Hk.
  destruct (index_nth _ _ _ _ Hmap Hk) as [Hidx Hlen].
  unfold in_window. rewrite Hidx. apply andb_false_intro2. apply Z.leb_gt.
  pose proof (sorted_nth ts Hs i (S i + k) ltac:(lia) Hlen).
  pose proof (Hlater (S i + k)%nat ltac:(lia) Hlen). lia.
Qed.

Lemma parse_rows_day_series rows df day :
  parse_rows rows = inr df ->
  exists ts, map index (filter (on_day day) df) = map Some ts /\ StronglySorted Z.le ts.
Proof.
  intros H. apply parse_rows_inv in H as (df0 & _ & _ & Hs & Hi & Hk).
  apply sorted_timestamps; [now apply filter_sorted|].
  apply Forall_forall. intros r Hr. apply filter_In in Hr as [Hr _].
  rewrite Forall_forall in Hi, Hk.
  destruct (kept_index _ r (Hk r Hr) (Hi r Hr)) as (s & _ & Hidx). eauto.
Qed.

(** C1, as the code has it.  In the series of one weekday of the loader's
    output, the rolling mean anchored at a record with solved-at datetime
    [T] is the arithmetic mean of the durations of the records of that
    weekday that are not after the anchor in the series and whose solved-at
    datetime is in (T - 56 days, T], however few they are; when no later
    record of the series has the datetime [T] itself, this is the mean over
    all the records of that weekday in (T - 56 days, T]. *)
Theorem rolling_mean_window env csv_path w df w' day i r T :
  parse_data env csv_path w = (inr df, w') ->
  nth_error (filter (on_day day) df) i = Some r ->
  index r = Some T ->
  exists pts,
    rolling_56D_mean (filter (on_day day) df) = inr pts /\
    nth_error pts i
    = Some (T, window_mean (firstn (S i) (filter (on_day day) df)) T) /\
    ((forall j r', (i < j)%nat ->
                   nth_error (filter (on_day day) df) j = Some r' ->
                   index r' <> Some T) ->
     nth_error pts i = Some (T, window_mean (filter (on_day day) df) T)).
Proof.
  intros H Hr HT. apply parse_data_inv in H as (_ & rows & _ & H).
  destruct (parse_rows_day_series rows df day H) as (ts & Hmap & Hs).
  destruct (rolling_sorted_nth _ ts i r T Hmap Hs Hr HT) as (pts & Hroll & _ & Hnth).
  exists pts. split; [exact Hroll|]. split; [exact Hnth|].
  intros Hlater. rewrite Hnth. do 2 f_equal.
  destruct (index_nth _ _ _ _ Hmap Hr) as [Hidx Hlen].
  assert (T = nthZ ts i) by congruence. subst T.
  symmetry. apply window_upto_whole; try assumption.
  intros j Hij Hj Heq.
  destruct (nth_error (filter (on_day day) df) j) as [r'|] eqn:Ej.
  - apply (Hlater j r' Hij Ej).
    destruct (index_nth _ _ _ _ Hmap Ej) as [Hidx' _]. congruence.
  - apply nth_error_None in Ej.
    assert (length (map index (filter (on_day day) df)) = length (map Some ts))
      by now rewrite Hmap.
    rewrite !length_map in *. lia.
Qed.

Lemma rolling_mean_window_witness :
  exists pts,
    rolling_56D_mean (filter (on_day (Some "Sat")) sample_df) = inr pts /\
    nth_error pts 1
    = Some (1641600300000000000,
            window_mean (firstn 2 (filter (on_day (Some "Sat")) sample_df))
                        1641600300000000000) /\
    ((forall j r', (1 < j)%nat ->
                   nth_error (filter (on_day (Some "Sat")) sample_df) j = Some r' ->
                   index r' <> Some 1641600300000000000) ->
     nth_error pts 1
     = Some (1641600300000000000,
             window_mean (filter (on_day (Some "Sat")) sample_df) 1641600300000000000)).
Proof.
  apply (rolling_mean_window sample_env "in.csv" initial_world sample_df initial_world
           (Some "Sat") 1 rec_sat1 1641600300000000000); reflexivity.
Defined.

(** C1, as the spec words it, fails when two records of a weekday share a
    solved timestamp: the rolling mean anchored at the first of them leaves
    the second out, although its datetime is in the interval. *)
Lemma rolling_mean_tie_counterexample :
  exists df,
    parse_rows tie_rows = inr df /\
    rolling_56D_mean (filter (on_day (Some "Mon")) df)
    = inr [(1641700100000000000, Some (100 # 1));
           (1641700100000000000, Some (150 # 1))] /\
    window_mean (filter (on_day (Some "Mon")) df) 1641700100000000000 = Some (150 # 1) /\
    ~ rolling_is_window_mean (filter (on_day (Some "Mon")) df).
Proof.
  eexists. split; [vm_compute; reflexivity|].
  split; [vm_compute; reflexivity|].
  split; [vm_compute; reflexivity|].
  intros Hclaim.
  specialize (Hclaim _ 0%nat 1641700100000000000 (Some (100 # 1)) eq_refl eq_refl).
  vm_compute in Hclaim. discriminate.
Qed.

(** * Properties of the renderer *)

Ltac world_simpl :=
  cbn [figure style stdout disk figsize dpi title lines legend xlabel ylabel ylim
       minor_yticks grid new_figure app].

Lemma for_each_plot_day df days : forall w,
  (forall day, In day days ->
     exists pts, rolling_56D_mean (filter (on_day day) df) = inr pts) ->
  for_each days (plot_day df) w
  = (inr tt, with_figure w (add_lines (figure w) (map (day_line df) days))).
Proof.
  induction days as [|d rest IH]; intros w Hok.
  - destruct w as [st so f dk]. destruct f. unfold with_figure, add_lines. simpl.
    now rewrite app_nil_r.
  - destruct (Hok d (or_introl eq_refl)) as [pts Hpts].
    cbn [for_each]. unfold bind at 1. unfold plot_day at 1.
    unfold bind at 1, lift at 1. rewrite Hpts.
    unfold plot_line, modify_figure.
    rewrite IH by (intros day Hday; apply Hok; now right).
    unfold with_figure, add_lines, day_line. simpl. rewrite Hpts.
    now rewrite <- app_assoc.
Qed.

(** The whole of [save_plot], when the rolling mean of every weekday is
    defined: it stops at the tick positions if the durations have no
    99th percentile, and otherwise goes on to write the figure. *)
Lemma save_plot_run env df out_path w :
  (forall day, exists pts, rolling_56D_mean (filter (on_day day) df) = inr pts) ->
  save_plot env df out_path w
  = match quantile 99 (durations df) with
    | None => (inl ValueError, with_figure w (unbounded_figure df))
    | Some q =>
        match savefig_error env out_path with
        | Some e =>
            (inl e,
             if savefig_leaves env out_path
             then mkWorld (style w) (stdout w) (rendered_figure df q)
                          ((out_path, Truncated) :: disk w)
             else with_figure w (rendered_figure df q))
        | None =>
            (inr tt,
             mkWorld (style w) (stdout w) (rendered_figure df q)
                     ((out_path, Image (rendered_figure df q)) :: disk w))
        end
    end.
Proof.
  intros Hok. unfold save_plot.
  unfold bind at 1. unfold plt_figure at 1, modify_figure at 1.
  unfold bind at 1. unfold plt_title at 1, modify_figure at 1. world_simpl.
  unfold bind at 1. rewrite for_each_plot_day by (intros day _; apply Hok).
  unfold with_figure, add_lines. world_simpl.
  unfold bind at 1. unfold plt_legend, modify_figure at 1. world_simpl.
  unfold bind at 1. unfold set_xlabel, modify_figure at 1. world_simpl.
  unfold bind at 1. unfold set_ylabel, modify_figure at 1. world_simpl.
  unfold bind at 1. unfold lift.
  destruct (quantile 99 (durations df)) as [q|]; cbn [option_map].
  - assert (E : arange0 (Some (Qred (div60 q + 1))) 5 = inr (minor_ticks q))
      by (unfold minor_ticks, arange0; reflexivity).
    rewrite E.
    unfold bind at 1. unfold set_ylim0, modify_figure at 1. world_simpl.
    unfold bind at 1. unfold set_minor_yticks, modify_figure at 1. world_simpl.
    cbn [option_map].
    unfold bind at 1. unfold plt_grid, modify_figure at 1. world_simpl.
    unfold plt_savefig, write_file, with_figure, rendered_figure. world_simpl.
    destruct (savefig_error env out_path); [|reflexivity].
    destruct (savefig_leaves env out_path); reflexivity.
  - unfold arange0, with_figure, unbounded_figure. reflexivity.
Qed.

Lemma parse_rows_rolling rows df day :
  parse_rows rows = inr df ->
  exists pts, rolling_56D_mean (filter (on_day day) df) = inr pts.
Proof.
  intros H. destruct (parse_rows_day_series rows df day H) as (ts & Hmap & Hs).
  eexists. exact (rolling_sorted _ ts Hmap Hs).
Qed.

Lemma quantile_defined a df :
  Forall (fun r => keep a r = true) df -> df <> [] ->
  exists q, quantile 99 (durations df) = Some q.
Proof.
  intros Hk Hne. destruct df as [|r rest]; [congruence|].
  inversion Hk as [|? ? Hr _]; subst.
  apply keep_inv in Hr as (_ & [d Hd] & _).
  unfold quantile. cbn [durations map]. rewrite Hd. cbn [observed]. eauto.
Qed.

Lemma same_day_spec a b : reflect (a = b) (same_day a b).
Proof.
  destruct a as [x|], b as [y|]; simpl; try (constructor; congruence).
  destruct (String.eqb_spec x y); constructor; congruence.
Qed.

Lemma unique_In l x : In x (unique l) <-> In x l.
Proof.
  induction l as [|a l IH]; simpl; [tauto|].
  rewrite filter_In, IH. destruct (same_day_spec x a) as [->|Hne]; simpl.
  - split; auto.
  - split; [tauto|]. intros [->|Hin]; [congruence|auto].
Qed.

Lemma unique_NoDup l : NoDup (unique l).
Proof.
  induction l as [|a l IH]; simpl; constructor.
  - rewrite filter_In. destruct (same_day_spec a a) as [_|Hne]; [|congruence].
    simpl. intros [_ H]. discriminate.
  - now apply NoDup_filter.
Qed.

Lemma insert_value_perm v l : Permutation (v :: l) (insert_value v l).
Proof.
  induction l as [|x l IH]; simpl; [reflexivity|].
  destruct (v <=? x); [reflexivity|].
  rewrite perm_swap. now constructor.
Qed.

Lemma sort_values_perm l : Permutation l (sort_values l).
Proof.
  induction l as [|v l IH]; simpl; [constructor|].
  rewrite <- insert_value_perm. now constructor.
Qed.

Lemma insert_value_sorted v l :
  StronglySorted Z.le l -> StronglySorted Z.le (insert_value v l).
Proof.
  induction 1 as [|x l Hs IH Hall]; simpl.
  - repeat constructor.
  - destruct (v <=? x) eqn:E.
    + apply Z.leb_le in E. constructor; [now constructor|].
      constructor; [exact E|].
      eapply Forall_impl; [|exact Hall]. intros y Hy. simpl in Hy. lia.
    + apply Z.leb_gt in E. constructor; [exact IH|].
      eapply Permutation_Forall; [apply insert_value_perm|].
      constructor; [lia|exact Hall].
Qed.

Lemma sort_values_sorted l : StronglySorted Z.le (sort_values l).
Proof.
  induction l; simpl; [constructor|]. now apply insert_value_sorted.
Qed.

(** A list of integers has one sorted arrangement. *)
Lemma sorted_perm_eq l : forall l',
  StronglySorted Z.le l -> StronglySorted Z.le l' -> Permutation l l' -> l = l'.
Proof.
  induction l as [|a l IH]; intros l' Hs Hs' Hp.
  - apply Permutation_nil in Hp. now subst.
  - destruct l' as [|b l'];
      [apply Permutation_sym, Permutation_nil in Hp; discriminate|].
    inversion Hs as [|? ? Hsl Hal]; subst. inversion Hs' as [|? ? Hsl' Hbl']; subst.
    assert (a = b).
    { rewrite Forall_forall in Hal, Hbl'.
      assert (Hb : In b (a :: l))
        by (eapply Permutation_in; [apply Permutation_sym; exact Hp|now left]).
      assert (Ha : In a (b :: l')) by (eapply Permutation_in; [exact Hp|now left]).
      destruct Hb as [->|Hb]; [reflexivity|].
      destruct Ha as [->|Ha]; [reflexivity|].
      specialize (Hal b Hb). specialize (Hbl' a Ha). lia. }
    subst b. f_equal. apply IH; try assumption.
    eapply Permutation_cons_inv. exact Hp.
Qed.

Lemma observed_perm l l' :
  Permutation l l' -> Permutation (observed l) (observed l').
Proof.
  induction 1 as [|x l l' _ IH|x y l|l l' l'' _ IH1 _ IH2]; simpl.
  - constructor.
  - destruct x; [now constructor|exact IH].
  - destruct x, y; try reflexivity. apply perm_swap.
  - now transitivity (observed l').
Qed.

(** The quantile is a function of the durations as a multiset: it does not
    see the order of the rows nor anything else in them. *)
Lemma quantile_perm num l l' :
  Permutation l l' -> quantile num l = quantile num l'.
Proof.
  intros Hp. apply observed_perm in Hp. unfold quantile.
  assert (Hsort : sort_values (observed l) = sort_values (observed l')).
  { apply sorted_perm_eq; try apply sort_values_sorted.
    rewrite <- !sort_values_perm. exact Hp. }
  destruct (observed l) as [|a o] eqn:E, (observed l') as [|a' o'] eqn:E'.
  - reflexivity.
  - apply Permutation_nil in Hp. discriminate.
  - apply Permutation_sym, Permutation_nil in Hp. discriminate.
  - now rewrite Hsort.
Qed.

Lemma map_snd_combine {A B} (l : list A) (l' : list B) :
  length l = length l' -> map snd (combine l l') = l'.
Proof.
  revert l'. induction l as [|x l IH]; intros [|y l'] H; simpl in *;
    try reflexivity; try discriminate.
  f_equal. apply IH. lia.
Qed.

(** The line of one weekday of the loader's output: a point for every
    record of that weekday, at its solved datetime, as high as the minutes of
    the mean of its window. *)
Lemma day_line_points rows df day :
  parse_rows rows = inr df ->
  exists ts,
    map index (filter (on_day day) df) = map Some ts /\
    map fst (points (day_line df day)) = ts /\
    map snd (points (day_line df day))
    = map (fun i => option_map div60
                      (window_mean (firstn (S i) (filter (on_day day) df)) (nthZ ts i)))
          (seq 0 (length ts)).
Proof.
  intros H. destruct (parse_rows_day_series rows df day H) as (ts & Hmap & Hs).
  exists ts. split; [exact Hmap|].
  unfold day_line. rewrite (rolling_sorted _ ts Hmap Hs). cbn [points].
  rewrite !map_map. cbn [fst snd]. split.
  - change (fun x : Z * option Q => fst x) with (@fst Z (option Q)).
    apply map_fst_combine. now rewrite length_map, length_seq.
  - rewrite <- (map_map snd (option_map div60)), map_snd_combine
      by now rewrite length_map, length_seq.
    now rewrite map_map.
Qed.

Lemma save_plot_lines env rows df out_path w :
  parse_rows rows = inr df ->
  exists res w',
    save_plot env df out_path w = (res, w') /\
    (df <> [] -> savefig_error env out_path = None -> res = inr tt) /\
    lines (figure w') = map (day_line df) (unique (map (fun r => weekday (row r)) df)).
Proof.
  intros H. rewrite save_plot_run by (intros day; eapply parse_rows_rolling; exact H).
  destruct (quantile 99 (durations df)) as [q|] eqn:Eq.
  - destruct (savefig_error env out_path) as [e|];
      [destruct (savefig_leaves env out_path)|]; do 2 eexists;
      (split; [reflexivity|]); (split; [|reflexivity]); congruence.
  - do 2 eexists. split; [reflexivity|]. split; [|reflexivity].
    intros Hne _. apply parse_rows_inv in H as (df0 & _ & _ & _ & _ & Hk).
    destruct (quantile_defined _ df Hk Hne). congruence.
Qed.

(** C4 does not hold of the code.  The sample file gives the loader two
    records, of 240 and 300 seconds.  The 99th percentile of the durations is
    299.4 seconds, 4.99 minutes, and line 69 makes it the upper limit of the
    y-axis; line 70 then sets minor ticks at 0 and 5, and the axis widens to
    hold them: in the figure that is written the upper bound is 5. *)
Theorem y_axis_bound_widened :
  parse_data sample_env "in.csv" styled_world = (inr sample_df, styled_world) /\
  quantile 99 (durations sample_df) = Some (1497 # 5) /\
  div60 (1497 # 5) = 499 # 100 /\
  exists fig,
    run sample_env ["plot.py"; "in.csv"; "out.png"]
    = (inr tt, mkWorld "ticks" [] fig [("out.png", Image fig)]) /\
    minor_yticks fig = [0; 5]%Q /\
    ylim fig = Some (0, 5)%Q.
Proof.
  split; [vm_compute; reflexivity|]. split; [vm_compute; reflexivity|].
  split; [vm_compute; reflexivity|].
  eexists. split; [vm_compute; reflexivity|]. split; reflexivity.
Qed.

(** C5, as the code has it.  On an empty frame the renderer does not write
    a chart: the durations have no 99th percentile, and the renderer raises
    [ValueError] at the tick positions of the y-axis, with no line drawn, no
    bound set and nothing written. *)
Theorem empty_frame_raises env out_path w :
  exists w',
    save_plot env [] out_path w = (inl ValueError, w') /\
    lines (figure w') = [] /\
    ylim (figure w') = None /\
    disk w' = disk w.
Proof.
  eexists. split.
  - rewrite save_plot_run; [reflexivity|].
    intros day. eexists. reflexivity.
  - repeat split.
Qed.

(** C5, as the spec words it, fails: with a file of which every row is
    dropped by the filter, the renderer raises and the run writes no file. *)
Lemma empty_chart_counterexample :
  parse_data dropped_env "in.csv" styled_world = (inr [], styled_world) /\
  ~ (exists w', save_plot dropped_env [] "out.png" styled_world = (inr tt, w')) /\
  fst (run dropped_env ["plot.py"; "in.csv"; "out.png"]%string) = inl ValueError /\
  disk (snd (run dropped_env ["plot.py"; "in.csv"; "out.png"]%string)) = [].
Proof.
  split; [reflexivity|]. split; [|split; vm_compute; reflexivity].
  intros [w' H]. vm_compute in H. discriminate.
Qed.

Lemma single_record_line r t d :
  index r = Some t ->
  weekday (row r) = Some d ->
  solve_time_secs (row r) = Some 300 ->
  map (day_line [r]) (unique (map (fun r => weekday (row r)) [r]))
  = [mkLine (Some d) [(t, Some 5%Q)]].
Proof.
  intros Ht Hw Hd. cbn [map unique filter]. rewrite Hw. unfold day_line.
  cbn [filter]. unfold on_day. rewrite Hw, String.eqb_refl.
  unfold rolling_56D_mean, validate_datetimelike_monotonic, durations.
  cbn [map]. rewrite Ht, Hd. reflexivity.
Qed.

Lemma no_weekday_line df : points (day_line df None) = [].
Proof.
  unfold day_line. cbn [points].
  assert (E : filter (on_day None) df = []) by (apply filter_none; reflexivity).
  rewrite E. reflexivity.
Qed.

(** C8, as the code has it.  The renderer draws one line for each distinct
    value of the weekday column of the loader's output, labelled with it,
    and no other; the line of a weekday has a point for each record of that
    weekday, at its solved-at datetime, whose height is the mean duration of
    its window divided by 60; if some record has no weekday, the missing
    value has a line too, without points, and such a record is in no line.
    The renderer returns normally when the frame is not empty and the file
    can be written.  A frame of one record that has a weekday and a duration
    of 300 seconds gives one line of one point, at 5 minutes. *)
Theorem one_line_per_weekday env csv_path w0 w0' df out_path w :
  parse_data env csv_path w0 = (inr df, w0') ->
  exists res w',
    save_plot env df out_path w = (res, w') /\
    (df <> [] -> savefig_error env out_path = None -> res = inr tt) /\
    map label (lines (figure w')) = unique (map (fun r => weekday (row r)) df) /\
    NoDup (map label (lines (figure w'))) /\
    (forall day, In day (map label (lines (figure w'))) <->
                 exists r, In r df /\ weekday (row r) = day) /\
    Forall (fun l =>
              exists ts,
                map index (filter (on_day (label l)) df) = map Some ts /\
                map fst (points l) = ts /\
                map snd (points l)
                = map (fun i => option_map div60
                                  (window_mean
                                     (firstn (S i) (filter (on_day (label l)) df))
                                     (nthZ ts i)))
                      (seq 0 (length ts)))
           (lines (figure w')) /\
    (forall l, In l (lines (figure w')) -> label l = None -> points l = []) /\
    (forall r t d, df = [r] -> index r = Some t -> weekday (row r) = Some d ->
                   solve_time_secs (row r) = Some 300 ->
                   lines (figure w') = [mkLine (Some d) [(t, Some 5%Q)]]).
Proof.
  intros H. apply parse_data_inv in H as (_ & rows & _ & H).
  destruct (save_plot_lines env rows df out_path w H) as (res & w' & Hrun & Hok & Hlines).
  exists res, w'. split; [exact Hrun|]. split; [exact Hok|].
  assert (Hlabels : map label (lines (figure w'))
                    = unique (map (fun r => weekday (row r)) df)).
  { rewrite Hlines, map_map. cbn [day_line label]. apply map_id. }
  split; [exact Hlabels|]. rewrite Hlabels.
  split; [apply unique_NoDup|]. split; [|split; [|split]].
  - intros day. rewrite unique_In, in_map_iff. split.
    + intros (r & Hr & Hin). eauto.
    + intros (r & Hin & Hr). eauto.
  - rewrite Hlines. apply Forall_forall. intros l Hl.
    apply in_map_iff in Hl as (day & <- & _).
    exact (day_line_points rows df day H).
  - rewrite Hlines. intros l Hl Hnone.
    apply in_map_iff in Hl as (day & <- & _). cbn [day_line label] in Hnone.
    subst day. apply no_weekday_line.
  - intros r t d -> Ht Hw Hd. rewrite Hlines. now apply single_record_line.
Qed.

Lemma one_line_per_weekday_witness :
  exists res w',
    save_plot single_env [rec_sat1] "out.png" styled_world = (res, w') /\
    ([rec_sat1] <> [] -> savefig_error single_env "out.png" = None -> res = inr tt) /\
    map label (lines (figure w')) = unique (map (fun r => weekday (row r)) [rec_sat1]) /\
    NoDup (map label (lines (figure w'))) /\
    (forall day, In day (map label (lines (figure w'))) <->
                 exists r, In r [rec_sat1] /\ weekday (row r) = day) /\
    Forall (fun l =>
              exists ts,
                map index (filter (on_day (label l)) [rec_sat1]) = map Some ts /\
                map fst (points l) = ts /\
                map snd (points l)
                = map (fun i => option_map div60
                                  (window_mean
                                     (firstn (S i) (filter (on_day (label l)) [rec_sat1]))
                                     (nthZ ts i)))
                      (seq 0 (length ts)))
           (lines (figure w')) /\
    (forall l, In l (lines (figure w')) -> label l = None -> points l = []) /\
    (forall r t d, [rec_sat1] = [r] -> index r = Some t -> weekday (row r) = Some d ->
                   solve_time_secs (row r) = Some 300 ->
                   lines (figure w') = [mkLine (Some d) [(t, Some 5%Q)]]).
Proof.
  apply (one_line_per_weekday single_env "in.csv" initial_world initial_world
           [rec_sat1] "out.png" styled_world).
  reflexivity.
Defined.

(** C8, as the spec words it, fails for a record without a weekday: a file
    of one such record, of 300 seconds, passes the filter, and the figure
    written has one line, for the missing value, and no point on it. *)
Lemma single_record_no_weekday_counterexample :
  parse_data noday_env "in.csv" styled_world
  = (inr [mkRec (Some 1641600300000000000) row_noday], styled_world) /\
  solve_time_secs row_noday = Some 300 /\
  exists fig,
    run noday_env ["plot.py"; "in.csv"; "out.png"]
    = (inr tt, mkWorld "ticks" [] fig [("out.png", Image fig)]) /\
    lines fig = [mkLine None []].
Proof.
  split; [vm_compute; reflexivity|]. split; [reflexivity|].
  eexists. split; [vm_compute; reflexivity|]. reflexivity.
Qed.

(** * Properties of the entry point *)

(** With both arguments present [main] is the loader followed by the
    renderer, with nothing around them. *)
Lemma main_with_args env argv in_file out_file :
  nth_error argv 1 = Some in_file ->
  nth_error argv 2 = Some out_file ->
  run env argv
  = bind (parse_data env in_file) (fun df => save_plot env df out_file) styled_world.
Proof.
  intros H1 H2. unfold run, main.
  unfold bind at 1. unfold sns_set_style at 1. cbn [style stdout figure disk initial_world].
  unfold bind at 1. unfold try_except at 1.
  unfold bind at 1. unfold sys_argv at 1. rewrite H1. unfold ret at 1.
  unfold bind at 1. unfold sys_argv at 1. rewrite H2. unfold ret at 1.
  unfold ret at 1. reflexivity.
Qed.

(** C6.  Called with no argument or with one, the program prints on
    standard output the line "Required arguments not given. Usage: ", the
    name it was called by, " <input_csv_file> <output_file>", and returns:
    nothing else is printed, nothing is read, drawn or written, and the exit
    status is 0. *)
Theorem missing_arguments_usage env prog rest :
  (length rest <= 1)%nat ->
  run env (prog :: rest)
  = (inr tt,
     mkWorld "ticks"
       [("Required arguments not given. Usage: " ++ prog
         ++ " <input_csv_file> <output_file>")%string]
       (figure initial_world) []) /\
  exit_status (fst (run env (prog :: rest))) = 0.
Proof.
  intros H. destruct rest as [|a [|b rest]]; simpl in H; try lia; split; reflexivity.
Qed.

Lemma missing_arguments_usage_witness :
  run sample_env ["plot.py"; "in.csv"]
  = (inr tt,
     mkWorld "ticks"
       ["Required arguments not given. Usage: plot.py <input_csv_file> <output_file>"]
       (figure initial_world) []) /\
  exit_status (fst (run sample_env ["plot.py"; "in.csv"])) = 0.
Proof.
  apply (missing_arguments_usage sample_env "plot.py" ["in.csv"]).
  simpl. lia.
Defined.

(** C7.  With both arguments present, the run ends in an exception exactly
    when the reader fails, a timestamp is out of range, the y-axis has no
    bound or the figure cannot be written, and the exception is that very
    one: no handler takes it.  The exit status is then 1 and no usage
    message is printed. *)
Theorem failures_propagate env argv in_file out_file e :
  nth_error argv 1 = Some in_file ->
  nth_error argv 2 = Some out_file ->
  (failure env in_file out_file e <-> fst (run env argv) = inl e) /\
  (fst (run env argv) = inl e ->
   exit_status (fst (run env argv)) = 1 /\ stdout (snd (run env argv)) = []).
Proof.
  intros H1 H2. rewrite (main_with_args env argv in_file out_file H1 H2).
  unfold bind, parse_data, lift.
  destruct (read_csv env in_file) as [e0|rows] eqn:Eread; cbn [res_bind].
  { split.
    - split.
      + intros Hf. inversion Hf; subst; cbn [fst]; congruence.
      + intros He. cbn [fst] in He. inversion He; subst. now constructor.
    - intros _. split; reflexivity. }
  destruct (parse_rows rows) as [e0|df] eqn:Eparse.
  { split.
    - split.
      + intros Hf. inversion Hf; subst; cbn [fst]; congruence.
      + intros He. cbn [fst] in He. inversion He; subst.
        eapply datetime_failure; eassumption.
    - intros _. split; reflexivity. }
  rewrite save_plot_run by (intros day; eapply parse_rows_rolling; exact Eparse).
  destruct (quantile 99 (durations df)) as [q|] eqn:Eq.
  - destruct (savefig_error env out_file) as [e0|] eqn:Esave.
    + split.
      * split.
        -- intros Hf. inversion Hf; subst; cbn [fst]; congruence.
        -- intros He. cbn [fst] in He. inversion He; subst.
           eapply write_failure; eassumption.
      * intros _. destruct (savefig_leaves env out_file); split; reflexivity.
    + split.
      * split.
        -- intros Hf. inversion Hf; subst; cbn [fst]; congruence.
        -- intros He. cbn [fst] in He. discriminate.
      * intros He. cbn [fst] in He. discriminate.
  - split.
    + split.
      * intros Hf. inversion Hf; subst; cbn [fst]; congruence.
      * intros He. cbn [fst] in He. inversion He; subst.
        eapply bound_failure; eassumption.
    + intros _. split; reflexivity.
Qed.

Lemma failures_propagate_witness :
  (failure missing_env "in.csv" "out.png" (Exn "FileNotFoundError") <->
   fst (run missing_env ["plot.py"; "in.csv"; "out.png"]%string)
   = inl (Exn "FileNotFoundError")) /\
  (fst (run missing_env ["plot.py"; "in.csv"; "out.png"]%string)
   = inl (Exn "FileNotFoundError") ->
   exit_status (fst (run missing_env ["plot.py"; "in.csv"; "out.png"]%string)) = 1 /\
   stdout (snd (run missing_env ["plot.py"; "in.csv"; "out.png"]%string)) = []).
Proof.
  apply (failures_propagate missing_env ["plot.py"; "in.csv"; "out.png"]%string
           "in.csv" "out.png" (Exn "FileNotFoundError")); reflexivity.
Defined.

(** * Further properties of the loader *)

Lemma filter_perm {A} (p : A -> bool) l l' :
  Permutation l l' -> Permutation (filter p l) (filter p l').
Proof.
  induction 1 as [|x l l' _ IH|x y l|l l' l'' _ IH1 _ IH2]; simpl.
  - constructor.
  - destruct (p x); [now constructor|exact IH].
  - destruct (p x), (p y); try reflexivity. apply perm_swap.
  - now transitivity (filter p l').
Qed.

Lemma map_row_filter_keep a df :
  map row (filter (keep a) df) = filter (keep_row a) (map row df).
Proof.
  induction df as [|r rest IH]; simpl; [reflexivity|].
  change (keep a r) with (keep_row a (row r)).
  destruct (keep_row a (row r)); simpl; now rewrite IH.
Qed.



(** X13.  Every record that the loader returns was solved without
    assistance ([cheated] is False), has a solve duration and has both
    timestamps; and it was solved less than 604800 seconds after it was
    opened whenever the difference of the two timestamps fits a signed
    64-bit integer. *)
Theorem kept_rows_invariant env csv_path w df w' r :
  parse_data env csv_path w = (inr df, w') ->
  In r df ->
  cheated (row r) = Some false /\
  (exists d, solve_time_secs (row r) = Some d) /\
  (exists s o, solved_unix (row r) = Some s /\ opened_unix (row r) = Some o /\
               (- 2 ^ 63 <= s - o < 2 ^ 63 -> s - o < 604800)).
Proof.
  intros H Hin. destruct (parse_data_kept _ _ _ _ _ _ H Hin) as (rows & _ & Hk).
  apply keep_inv in Hk as (Hc & Hd & s & o & Hs & Ho & Hgap).
  split; [exact Hc|]. split; [exact Hd|].
  exists s, o. split; [exact Hs|]. split; [exact Ho|].
  intros Hfit. destruct (int64_times rows); [|exact Hgap].
  now rewrite wrap64_small in Hgap.
Qed.

Lemma kept_rows_invariant_witness :
  cheated (row rec_sat1) = Some false /\
  (exists d, solve_time_secs (row rec_sat1) = Some d) /\
  (exists s o, solved_unix (row rec_sat1) = Some s /\
               opened_unix (row rec_sat1) = Some o /\
               (- 2 ^ 63 <= s - o < 2 ^ 63 -> s - o < 604800)).
Proof.
  apply (kept_rows_invariant sample_env "in.csv" initial_world sample_df
           initial_world rec_sat1); [reflexivity|simpl; auto].
Defined.

Lemma set_index_out_of_range rows :
  Exists (fun r => ~ datetime_in_range r) rows ->
  set_index rows = inl OutOfBoundsDatetime.
Proof.
  induction rows as [|r rest IH]; intros H; [inversion H|].
  cbn [set_index]. unfold to_datetime1.
  destruct (solved_unix r) as [s|] eqn:Es; cbv zeta.
  - destruct ((- 2 ^ 63 <? s * NS_PER_SEC) && (s * NS_PER_SEC <? 2 ^ 63)) eqn:E;
      [|reflexivity].
    cbn [res_bind]. rewrite IH; [reflexivity|].
    inversion H as [? ? Hr|? ? Hrest]; subst; [|exact Hrest].
    exfalso. apply Hr. unfold datetime_in_range. rewrite Es.
    apply andb_prop in E as [E1 E2].
    apply Z.ltb_lt in E1. apply Z.ltb_lt in E2. lia.
  - cbn [res_bind]. rewrite IH; [reflexivity|].
    inversion H as [? ? Hr|? ? Hrest]; subst; [|exact Hrest].
    exfalso. apply Hr. unfold datetime_in_range. now rewrite Es.
Qed.

(** X2.  Once the file is read, the loader fails on the datetime conversion and
    on nothing else: it returns a frame when every solved timestamp fits a
    nanosecond datetime, and raises [OutOfBoundsDatetime] when one does not,
    be it in a row that the filter would have dropped. *)
Theorem loader_datetime_range env csv_path w rows :
  read_csv env csv_path = inr rows ->
  (Forall datetime_in_range rows ->
   exists df, parse_data env csv_path w = (inr df, w)) /\
  (Exists (fun r => ~ datetime_in_range r) rows ->
   parse_data env csv_path w = (inl OutOfBoundsDatetime, w)).
Proof.
  intros Hread. unfold parse_data, lift. rewrite Hread. cbn [res_bind].
  unfold parse_rows. split.
  - intros Hall. destruct (set_index_total rows Hall) as [df0 H0].
    rewrite H0. cbn [res_bind]. eauto.
  - intros Hex. now rewrite (set_index_out_of_range rows Hex).
Qed.

Lemma loader_datetime_range_witness :
  (Forall datetime_in_range far_rows ->
   exists df, parse_data far_env "in.csv" initial_world = (inr df, initial_world)) /\
  (Exists (fun r => ~ datetime_in_range r) far_rows ->
   parse_data far_env "in.csv" initial_world = (inl OutOfBoundsDatetime, initial_world)).
Proof.
  apply (loader_datetime_range far_env "in.csv" initial_world far_rows). reflexivity.
Defined.

(** * Further properties of the renderer and of the entry point *)

Lemma figure_only_modify f : figure_only (modify_figure f).
Proof. intros w. repeat split. Qed.

Lemma figure_only_lift {A} (r : result A) : figure_only (lift r).
Proof. intros w. repeat split. Qed.

Lemma figure_only_ret {A} (a : A) : figure_only (ret a).
Proof. intros w. repeat split. Qed.

Lemma figure_only_raise {A} e : figure_only (@raise A e).
Proof. intros w. repeat split. Qed.

Lemma figure_only_bind {A B} (m : M A) (k : A -> M B) :
  figure_only m -> (forall a, figure_only (k a)) -> figure_only (bind m k).
Proof.
  intros Hm Hk w. unfold bind. specialize (Hm w).
  destruct (m w) as [[e|a] w1]; cbn [fst snd] in *; [exact Hm|].
  destruct Hm as (H1 & H2 & H3). destruct (Hk a w1) as (K1 & K2 & K3).
  repeat split; congruence.
Qed.

Lemma figure_only_for_each {A} (l : list A) (body : A -> M unit) :
  (forall a, figure_only (body a)) -> figure_only (for_each l body).
Proof.
  intros Hb. induction l as [|x l IH]; cbn [for_each].
  - apply figure_only_ret.
  - apply figure_only_bind; [apply Hb|intros _; exact IH].
Qed.

Lemma figure_only_plot_day df day : figure_only (plot_day df day).
Proof.
  unfold plot_day. apply figure_only_bind; [apply figure_only_lift|].
  intros pts. apply figure_only_modify.
Qed.

Lemma figure_only_set_ylim0 top : figure_only (set_ylim0 top).
Proof.
  destruct top; [apply figure_only_modify|apply figure_only_raise].
Qed.

Lemma writes_on_return_savefig env out_path :
  writes_on_return out_path (plt_savefig env out_path).
Proof.
  intros w. unfold plt_savefig, write_file.
  destruct (savefig_error env out_path); [|repeat split].
  destruct (savefig_leaves env out_path); cbn [fst snd style stdout disk]; auto.
Qed.

Lemma writes_on_return_bind {A} out_path (m : M A) (k : A -> M unit) :
  figure_only m -> (forall a, writes_on_return out_path (k a)) ->
  writes_on_return out_path (bind m k).
Proof.
  intros Hm Hk w. unfold bind. specialize (Hm w).
  destruct (m w) as [[e|a] w1]; cbn [fst snd] in *.
  - destruct Hm as (H1 & H2 & H3). repeat split; auto.
  - destruct Hm as (H1 & H2 & H3). destruct (Hk a w1) as (K1 & K2 & K3).
    split; [congruence|]. split; [congruence|].
    destruct (fst (k a w1)); [|congruence].
    destruct K3 as [K3|K3]; [left|right]; congruence.
Qed.

(** X3.  Whatever frame it is given, the renderer prints nothing, leaves
    the style alone and touches no file but the one at the output path.  When
    it returns it has written there the image of the finished figure, on top
    of the files that were there.  When it raises it has written nothing, or
    left there what a failed write leaves. *)
Theorem save_plot_effects env df out_path w :
  style (snd (save_plot env df out_path w)) = style w /\
  stdout (snd (save_plot env df out_path w)) = stdout w /\
  match fst (save_plot env df out_path w) with
  | inr _ =>
      disk (snd (save_plot env df out_path w))
      = (out_path, Image (figure (snd (save_plot env df out_path w)))) :: disk w
  | inl _ =>
      disk (snd (save_plot env df out_path w)) = disk w \/
      disk (snd (save_plot env df out_path w)) = (out_path, Truncated) :: disk w
  end.
Proof.
  revert w. change (writes_on_return out_path (save_plot env df out_path)).
  unfold save_plot.
  repeat (apply writes_on_return_bind;
          [first [apply figure_only_modify | apply figure_only_lift
                 | apply figure_only_set_ylim0
                 | apply figure_only_for_each; intros; apply figure_only_plot_day]
          |intros ?]).
  apply writes_on_return_savefig.
Qed.

(** X4.  Arguments after the second are ignored. *)
Theorem extra_arguments_ignored env prog in_file out_file extra :
  run env (prog :: in_file :: out_file :: extra) = run env [prog; in_file; out_file].
Proof.
  rewrite (main_with_args env (prog :: in_file :: out_file :: extra) in_file out_file),
          (main_with_args env [prog; in_file; out_file] in_file out_file);
    reflexivity.
Qed.

Lemma kept_rows_nonempty rows df :
  parse_rows rows = inr df ->
  Exists (fun r => keep_row (int64_times rows) r = true) rows ->
  df <> [].
Proof.
  intros H Hex Hnil. subst df.
  apply parse_rows_inv in H as (df0 & Hset & Hdf & _).
  assert (Hp : Permutation (map row (@nil Rec))
                           (filter (keep_row (int64_times rows)) rows)).
  { rewrite Hdf at 1. rewrite map_row_filter_keep, <- (set_index_rows rows df0 Hset).
    apply filter_perm, Permutation_map, Permutation_sym, sort_index_perm. }
  apply Permutation_nil in Hp.
  apply Exists_exists in Hex as (r & Hin & Hr).
  assert (Hf : In r (filter (keep_row (int64_times rows)) rows))
    by (apply filter_In; auto).
  rewrite Hp in Hf. exact Hf.
Qed.

(** X5.  The whole run succeeds when it has its two arguments, the file is
    read, every solved timestamp fits a datetime, one row at least passes the
    filter and the figure can be written: [main] returns, the exit status is
    0, nothing is printed, and the one file written is the figure, which has
    a line and a bound for the y-axis. *)
Theorem run_succeeds env argv in_file out_file rows :
  nth_error argv 1 = Some in_file ->
  nth_error argv 2 = Some out_file ->
  read_csv env in_file = inr rows ->
  Forall datetime_in_range rows ->
  Exists (fun r => keep_row (int64_times rows) r = true) rows ->
  savefig_error env out_file = None ->
  exists fig,
    run env argv = (inr tt, mkWorld "ticks" [] fig [(out_file, Image fig)]) /\
    exit_status (fst (run env argv)) = 0 /\
    lines fig <> [] /\
    ylim fig <> None.
Proof.
  intros H1 H2 Hread Hrange Hkept Hsave.
  rewrite (main_with_args env argv in_file out_file H1 H2).
  unfold bind, parse_data, lift. rewrite Hread. cbn [res_bind].
  unfold parse_rows at 1 2.
  destruct (set_index_total rows Hrange) as [df0 H0].
  assert (Hparse : parse_rows rows
                   = inr (filter (keep (int64_times rows)) (sort_index df0)))
    by (unfold parse_rows; now rewrite H0).
  rewrite H0. cbn [res_bind].
  set (df := filter (keep (int64_times rows)) (sort_index df0)) in *.
  pose proof (kept_rows_nonempty rows df Hparse Hkept) as Hne.
  rewrite !save_plot_run by (intros day; eapply parse_rows_rolling; exact Hparse).
  apply parse_rows_inv in Hparse as (_ & _ & _ & _ & _ & Hk).
  destruct (quantile_defined _ df Hk Hne) as [q Hq]. rewrite Hq, Hsave.
  exists (rendered_figure df q). split; [reflexivity|]. split; [reflexivity|].
  split; [|discriminate].
  cbn [rendered_figure lines]. destruct df as [|r rest]; [congruence|].
  cbn [map unique]. discriminate.
Qed.

Lemma run_succeeds_witness :
  exists fig,
    run sample_env ["plot.py"; "in.csv"; "out.png"]%string
    = (inr tt, mkWorld "ticks" [] fig [("out.png"%string, Image fig)]) /\
    exit_status (fst (run sample_env ["plot.py"; "in.csv"; "out.png"]%string)) = 0 /\
    lines fig <> [] /\
    ylim fig <> None.
Proof.
  apply (run_succeeds sample_env ["plot.py"; "in.csv"; "out.png"]%string
           "in.csv" "out.png" sample_rows); try reflexivity.
  - repeat constructor; simpl; lia.
  - constructor. reflexivity.
Defined.

(** * Further properties of the rolling mean *)

Lemma observed_In v l : In v (observed l) <-> In (Some v) l.
Proof.
  induction l as [|[x|] l IH]; simpl.
  - tauto.
  - rewrite IH. split; intros [H|H]; auto; left; congruence.
  - rewrite IH. split; [auto|]. intros [H|H]; [discriminate|exact H].
Qed.

Lemma firstn_incl {A} n (l : list A) x : In x (firstn n l) -> In x l.
Proof.
  intros H. rewrite <- (firstn_skipn n l). apply in_or_app. now left.
Qed.

Lemma list_extrema obs :
  obs <> [] ->
  exists lo hi, In lo obs /\ In hi obs /\ Forall (fun x => lo <= x <= hi) obs.
Proof.
  induction obs as [|a rest IH]; intros Hne; [congruence|].
  destruct rest as [|b rest'].
  - exists a, a. repeat split; try (now left). repeat constructor; lia.
  - destruct (IH ltac:(discriminate)) as (lo & hi & Hlo & Hhi & Hall).
    exists (if a <=? lo then a else lo), (if hi <=? a then a else hi).
    destruct (a <=? lo) eqn:E1, (hi <=? a) eqn:E2;
      try apply Z.leb_le in E1; try apply Z.leb_le in E2;
      try apply Z.leb_gt in E1; try apply Z.leb_gt in E2;
      (split; [simpl; tauto|]); (split; [simpl; tauto|]);
      (constructor; [lia|]);
      (eapply Forall_impl; [|exact Hall]); intros x Hx; simpl in Hx; lia.
Qed.

Lemma sum_bounds obs lo hi :
  Forall (fun x => lo <= x <= hi) obs ->
  Z.of_nat (length obs) * lo <= sumZ obs <= Z.of_nat (length obs) * hi.
Proof.
  induction 1 as [|x l Hx _ IH]; [simpl; lia|].
  cbn [sumZ fold_right]. fold (sumZ l). rewrite length_cons, Nat2Z.inj_succ. nia.
Qed.

(** The mean of a list of observations that is not empty is a number
    between the least and the greatest of them. *)
Lemma mean_bounds obs :
  obs <> [] ->
  exists m lo hi,
    mean obs = Some m /\ In lo obs /\ In hi obs /\
    (inject_Z lo <= m)%Q /\ (m <= inject_Z hi)%Q.
Proof.
  intros Hne. destruct (list_extrema obs Hne) as (lo & hi & Hlo & Hhi & Hall).
  pose proof (sum_bounds obs lo hi Hall) as [Hs1 Hs2].
  destruct obs as [|a rest] eqn:E; [congruence|]. rewrite <- E in *.
  assert (Hn : 0 < Z.of_nat (length obs)) by (subst obs; simpl; lia).
  exists (Qred (inject_Z (sumZ obs) / inject_Z (Z.of_nat (length obs)))), lo, hi.
  split; [subst obs; reflexivity|]. split; [exact Hlo|]. split; [exact Hhi|].
  rewrite Qred_correct.
  assert (Hq : (0 < inject_Z (Z.of_nat (length obs)))%Q)
    by (rewrite Zlt_Qlt in Hn; exact Hn).
  split.
  - apply Qle_shift_div_l; [exact Hq|].
    rewrite <- inject_Z_mult, <- Zle_Qle. lia.
  - apply Qle_shift_div_r; [exact Hq|].
    rewrite <- inject_Z_mult, <- Zle_Qle. lia.
Qed.

Lemma nth_error_combine_inv {A B} (l : list A) (l' : list B) : forall i a b,
  nth_error (combine l l') i = Some (a, b) ->
  nth_error l i = Some a /\ nth_error l' i = Some b.
Proof.
  revert l'. induction l as [|x l IH]; intros l' i a b H.
  - destruct i; discriminate.
  - destruct l' as [|y l']; [destruct i; discriminate|].
    destruct i as [|i]; simpl in *; [inversion H; auto|]. now apply IH.
Qed.

(** X7.  Every value of the rolling mean of a weekday of the loader's output is
    a number, never NaN, and it lies between two durations of that weekday:
    the window of a record holds that record at least. *)
Theorem rolling_mean_within_range env csv_path w df w' day pts i T y :
  parse_data env csv_path w = (inr df, w') ->
  rolling_56D_mean (filter (on_day day) df) = inr pts ->
  nth_error pts i = Some (T, y) ->
  exists m lo hi,
    y = Some m /\
    In (Some lo) (durations (filter (on_day day) df)) /\
    In (Some hi) (durations (filter (on_day day) df)) /\
    (inject_Z lo <= m)%Q /\ (m <= inject_Z hi)%Q.
Proof.
  intros H Hroll Hnth. apply parse_data_inv in H as (_ & rows & _ & H).
  destruct (parse_rows_day_series rows df day H) as (ts & Hmap & Hs).
  apply parse_rows_inv in H as (df0 & _ & _ & _ & _ & Hk).
  set (s := filter (on_day day) df) in *.
  rewrite (rolling_sorted s ts Hmap Hs) in Hroll. inversion Hroll; subst pts.
  apply nth_error_combine_inv in Hnth as [HT Hy].
  rewrite nth_error_map in Hy.
  destruct (nth_error (seq 0 (length ts)) i) as [k|] eqn:Ek; [|discriminate].
  assert (Hi : (i < length ts)%nat) by (apply nth_error_Some; congruence).
  rewrite nth_error_seq in Ek. apply Nat.ltb_lt in Hi as Hi'. rewrite Hi' in Ek.
  inversion Ek; subst k. cbn [option_map] in Hy. inversion Hy as [Hy']. clear Hy Ek.
  assert (HTi : T = nthZ ts i) by (unfold nthZ; now rewrite (nth_error_nth ts i 0 HT)).
  rewrite <- HTi in *.
  assert (Hlen : length s = length ts).
  { rewrite <- (length_map index s), Hmap. apply length_map. }
  destruct (nth_error s i) as [r|] eqn:Er;
    [|apply nth_error_None in Er; lia].
  destruct (index_nth _ _ _ _ Hmap Er) as [Hidx _]. rewrite <- HTi in Hidx.
  assert (Hkeep : keep (int64_times rows) r = true).
  { rewrite Forall_forall in Hk. apply Hk.
    apply nth_error_In in Er. unfold s in Er. apply filter_In in Er. tauto. }
  apply keep_inv in Hkeep as (_ & [d Hd] & _).
  unfold window_mean.
  set (obs := observed (durations (filter (in_window T) (firstn (S i) s)))).
  assert (Hne : obs <> []).
  { assert (Hin : In d obs).
    { apply observed_In. unfold durations. rewrite <- Hd.
      apply (in_map (fun r => solve_time_secs (row r))). apply filter_In. split.
      - apply (nth_error_In _ i). rewrite nth_error_firstn.
        rewrite (proj2 (Nat.ltb_lt i (S i))) by lia. exact Er.
      - unfold in_window. rewrite Hidx. pose proof window_pos.
        apply andb_true_intro. split; [apply Z.ltb_lt|apply Z.leb_le]; lia. }
    intros E. rewrite E in Hin. exact Hin. }
  destruct (mean_bounds obs Hne) as (m & lo & hi & Hm & Hlo & Hhi & Hb1 & Hb2).
  exists m, lo, hi. split; [exact Hm|].
  assert (Hup : forall v, In v obs -> In (Some v) (durations s)).
  { intros v Hv. apply observed_In in Hv. unfold durations in *.
    apply in_map_iff in Hv as (r' & Hr' & Hin'). apply in_map_iff.
    exists r'. split; [exact Hr'|].
    apply filter_In in Hin' as [Hin' _]. eapply firstn_incl; exact Hin'. }
  auto.
Qed.

Lemma rolling_mean_within_range_witness :
  exists m lo hi,
    Some (270 # 1) = Some m /\
    In (Some lo) (durations (filter (on_day (Some "Sat")) sample_df)) /\
    In (Some hi) (durations (filter (on_day (Some "Sat")) sample_df)) /\
    (inject_Z lo <= m)%Q /\ (m <= inject_Z hi)%Q.
Proof.
  apply (rolling_mean_within_range sample_env "in.csv" initial_world sample_df
           initial_world (Some "Sat")
           [(1641000240000000000, Some (240 # 1)); (1641600300000000000, Some (270 # 1))]
           1 1641600300000000000 (Some (270 # 1))); reflexivity.
Defined.

(** * Further properties of the y-axis *)

Lemma Some_inj {A} (a b : A) : Some a = Some b -> a = b.
Proof. congruence. Qed.

Lemma sort_values_length l : length (sort_values l) = length l.
Proof. symmetry. apply Permutation_length, sort_values_perm. Qed.

(** The quantile lies between two of the durations: it interpolates between
    two neighbours in sorted order. *)
Lemma quantile_bounds vals q :
  quantile 99 vals = Some q ->
  exists a b,
    In (Some a) vals /\ In (Some b) vals /\
    (inject_Z a <= q)%Q /\ (q <= inject_Z b)%Q.
Proof.
  unfold quantile. destruct (observed vals) as [|x o] eqn:Eobs; [discriminate|].
  cbv zeta. set (sorted := sort_values (x :: o)).
  assert (Hlen : length sorted = S (length o)) by (unfold sorted; now rewrite sort_values_length).
  set (n := Z.of_nat (length sorted)). set (pos := 99 * (n - 1)).
  set (lo := Z.to_nat (pos / 100)). set (hi := Nat.min (S lo) (length sorted - 1)).
  intros Hq. apply Some_inj in Hq. rewrite <- Hq. clear Hq.
  assert (Hn : 1 <= n) by (unfold n; lia).
  assert (Hpos : 0 <= pos / 100 <= n - 1).
  { split; [apply Z.div_pos; unfold pos; lia|].
    apply Z.div_le_upper_bound; unfold pos; lia. }
  assert (Hlo : (lo < length sorted)%nat) by (unfold lo, n in *; lia).
  assert (Hhi : (lo <= hi)%nat /\ (hi < length sorted)%nat) by (unfold hi; lia).
  assert (Hin : forall k, (k < length sorted)%nat -> In (Some (nthZ sorted k)) vals).
  { intros k Hk. apply observed_In. rewrite Eobs.
    eapply Permutation_in; [apply Permutation_sym, sort_values_perm|].
    apply nth_In. exact Hk. }
  exists (nthZ sorted lo), (nthZ sorted hi).
  split; [apply Hin; exact Hlo|]. split; [apply Hin; apply Hhi|].
  pose proof (sorted_nth sorted (sort_values_sorted _) lo hi (proj1 Hhi) (proj2 Hhi)) as Hab.
  rewrite Zle_Qle in Hab.
  pose proof (Z.mod_pos_bound pos 100 ltac:(lia)) as Hmod.
  assert (Hg0 : (0 <= pos mod 100 # 100)%Q) by (unfold Qle; simpl; lia).
  assert (Hg1 : (pos mod 100 # 100 <= 1)%Q) by (unfold Qle; simpl; lia).
  rewrite Qred_correct.
  set (a := inject_Z (nthZ sorted lo)) in *. set (b := inject_Z (nthZ sorted hi)) in *.
  set (g := (pos mod 100 # 100)%Q) in *.
  split; nra.
Qed.















(** * Further properties of the lines *)

Lemma list_sum_add {A} (f g : A -> nat) l :
  list_sum (map (fun d => f d + g d)%nat l)
  = (list_sum (map f l) + list_sum (map g l))%nat.
Proof.
  induction l as [|a l IH]; simpl; [reflexivity|]. rewrite IH. lia.
Qed.

Lemma list_sum_zero {A} (l : list A) : list_sum (map (fun _ => 0%nat) l) = 0%nat.
Proof. induction l; simpl; auto. Qed.

Lemma list_sum_none {A} (f : A -> bool) days :
  (forall d, In d days -> f d = false) ->
  list_sum (map (fun d => if f d then 1 else 0)%nat days) = 0%nat.
Proof.
  induction days as [|d days IH]; intros H; simpl; [reflexivity|].
  rewrite (H d) by (now left). apply IH. intros d' Hd'. apply H. now right.
Qed.

Lemma list_sum_one {A} (f : A -> bool) x days :
  NoDup days -> In x days ->
  (forall d, f d = true <-> d = x) ->
  list_sum (map (fun d => if f d then 1 else 0)%nat days) = 1%nat.
Proof.
  intros Hnd Hin Hf. induction Hnd as [|d days Hnot Hnd IH]; [contradiction|].
  simpl. destruct (f d) eqn:E.
  - apply Hf in E. subst d. rewrite list_sum_none; [reflexivity|].
    intros d Hd. destruct (f d) eqn:E'; [|reflexivity].
    apply Hf in E'. subst d. contradiction.
  - destruct Hin as [->|Hin]; [|now apply IH].
    assert (f x = true) by now apply Hf. congruence.
Qed.

Lemma on_day_iff d r x :
  weekday (row r) = Some x -> (on_day d r = true <-> d = Some x).
Proof.
  intros Hw. unfold on_day. rewrite Hw. destruct d as [y|]; [|split; discriminate].
  destruct (String.eqb_spec x y) as [->|Hne]; split; congruence.
Qed.

(** The series of the values of the weekday column split the records that
    have a weekday: each of them is in one series, and a record without a
    weekday is in none. *)
Lemma day_series_partition days (df : DataFrame) :
  NoDup days ->
  (forall r, In r df -> In (weekday (row r)) days) ->
  list_sum (map (fun d => length (filter (on_day d) df)) days)
  = length (filter has_weekday df).
Proof.
  intros Hnd. induction df as [|r rest IH]; intros Hall.
  - simpl. apply list_sum_zero.
  - rewrite (map_ext _ (fun d => (if on_day d r then 1 else 0)
                                 + length (filter (on_day d) rest))%nat)
      by (intros d; cbn [filter]; destruct (on_day d r); reflexivity).
    rewrite list_sum_add, IH by (intros r' Hr'; apply Hall; now right).
    cbn [filter]. unfold has_weekday at 2.
    destruct (weekday (row r)) as [x|] eqn:Hw; cbn [present length].
    + rewrite (list_sum_one (fun d => on_day d r) (Some x)); [reflexivity|exact Hnd| |].
      * rewrite <- Hw. apply Hall. now left.
      * intros d. now apply on_day_iff.
    + rewrite list_sum_none; [reflexivity|].
      intros d _. unfold on_day. rewrite Hw. now destruct d.
Qed.

(** X12.  Every record of the loader's output that has a weekday is drawn
    once, and a record that has none is not drawn: the points of the lines of
    the figure are as many as the records that have a weekday. *)
Theorem every_weekday_record_plotted env csv_path w0 w0' df out_path w :
  parse_data env csv_path w0 = (inr df, w0') ->
  list_sum (map (fun l => length (points l))
                (lines (figure (snd (save_plot env df out_path w)))))
  = length (filter has_weekday df).
Proof.
  intros H. apply parse_data_inv in H as (_ & rows & _ & H).
  destruct (save_plot_lines env rows df out_path w H) as (res & w' & Hrun & _ & Hlines).
  rewrite Hrun. cbn [snd]. rewrite Hlines, map_map.
  rewrite (map_ext _ (fun d => length (filter (on_day d) df))).
  - apply day_series_partition; [apply unique_NoDup|].
    intros r Hr. apply unique_In.
    apply (in_map (fun r => weekday (row r))). exact Hr.
  - intros day. destruct (day_line_points rows df day H) as (ts & Hmap & Hfst & _).
    rewrite <- (length_map fst), Hfst, <- (length_map Some ts), <- Hmap.
    apply length_map.
Qed.

Lemma every_weekday_record_plotted_witness :
  list_sum (map (fun l => length (points l))
                (lines (figure (snd (save_plot sample_env sample_df "out.png"
                                               styled_world)))))
  = length (filter has_weekday sample_df).
Proof.
  apply (every_weekday_record_plotted sample_env "in.csv" initial_world initial_world).
  reflexivity.
Defined.

(** X9.  Two records of a weekday, the second not before the first: the rolling
    mean at the second is the mean of the two durations when it was solved
    less than 56 days after the first, and its own duration when it was
    solved 56 days after it or later. *)
Theorem two_record_window r1 r2 t1 t2 :
  index r1 = Some t1 ->
  index r2 = Some t2 ->
  t1 <= t2 ->
  rolling_56D_mean [r1; r2]
  = inr [(t1, mean (observed [solve_time_secs (row r1)]));
         (t2, if t2 - t1 <? WINDOW_56D
              then mean (observed [solve_time_secs (row r1); solve_time_secs (row r2)])
              else mean (observed [solve_time_secs (row r2)]))].
Proof.
  intros H1 H2 Hle. pose proof window_pos as HW.
  assert (Hmap : map index [r1; r2] = map Some [t1; t2]) by (simpl; now rewrite H1, H2).
  assert (Hs : StronglySorted Z.le [t1; t2]) by (repeat constructor; exact Hle).
  rewrite (rolling_sorted _ _ Hmap Hs).
  cbn [length seq map combine firstn nthZ nth]. unfold window_mean.
  cbn [filter]. unfold in_window. rewrite H1, H2.
  assert (E1 : ((t1 - WINDOW_56D <? t1) && (t1 <=? t1)) = true).
  { apply andb_true_intro. split; [apply Z.ltb_lt|apply Z.leb_le]; lia. }
  assert (E2 : ((t2 - WINDOW_56D <? t2) && (t2 <=? t2)) = true).
  { apply andb_true_intro. split; [apply Z.ltb_lt|apply Z.leb_le]; lia. }
  assert (E3 : ((t2 - WINDOW_56D <? t1) && (t1 <=? t2)) = (t2 - t1 <? WINDOW_56D)).
  { rewrite (proj2 (Z.leb_le t1 t2) Hle), andb_true_r.
    destruct (t2 - t1 <? WINDOW_56D) eqn:E.
    - apply Z.ltb_lt in E. apply Z.ltb_lt. lia.
    - apply Z.ltb_ge in E. apply Z.ltb_ge. lia. }
  rewrite E1, E2, E3.
  destruct (t2 - t1 <? WINDOW_56D); reflexivity.
Qed.

Lemma two_record_window_witness :
  rolling_56D_mean [rec_sat2; rec_sat1]
  = inr [(1641000240000000000, mean (observed [solve_time_secs (row rec_sat2)]));
         (1641600300000000000,
          if 1641600300000000000 - 1641000240000000000 <? WINDOW_56D
          then mean (observed [solve_time_secs (row rec_sat2);
                               solve_time_secs (row rec_sat1)])
          else mean (observed [solve_time_secs (row rec_sat1)]))].
Proof.
  apply (two_record_window rec_sat2 rec_sat1 1641000240000000000 1641600300000000000);
    [reflexivity|reflexivity|lia].
Defined.

Lemma filter_all {A} (p : A -> bool) (l : list A) :
  (forall x, In x l -> p x = true) -> filter p l = l.
Proof.
  induction l as [|a l IH]; intros H; simpl; [reflexivity|].
  rewrite (H a) by (now left). f_equal. apply IH. intros x Hx. apply H. now right.
Qed.

(** X8.  For the first 56 days of a weekday's history the line is a running
    average: at a record solved less than 56 days after the first record of
    its weekday, the rolling mean is the mean of the durations of all the
    records of that weekday up to it. *)
Theorem rolling_mean_first_weeks env csv_path w df w' day i r r0 T T0 :
  parse_data env csv_path w = (inr df, w') ->
  nth_error (filter (on_day day) df) 0 = Some r0 ->
  index r0 = Some T0 ->
  nth_error (filter (on_day day) df) i = Some r ->
  index r = Some T ->
  T - T0 < WINDOW_56D ->
  exists pts,
    rolling_56D_mean (filter (on_day day) df) = inr pts /\
    nth_error pts i
    = Some (T, mean (observed (durations (firstn (S i) (filter (on_day day) df))))).
Proof.
  intros H Hr0 HT0 Hr HT Hnear. apply parse_data_inv in H as (_ & rows & _ & H).
  destruct (parse_rows_day_series rows df day H) as (ts & Hmap & Hs).
  set (s := filter (on_day day) df) in *.
  destruct (rolling_sorted_nth s ts i r T Hmap Hs Hr HT) as (pts & Hroll & _ & Hnth).
  exists pts. split; [exact Hroll|]. rewrite Hnth. do 2 f_equal.
  unfold window_mean. rewrite filter_all; [reflexivity|].
  intros x Hx. apply In_nth_error in Hx as [k Hk]. rewrite nth_error_firstn in Hk.
  destruct (k <? S i)%nat eqn:Ek; [|discriminate]. apply Nat.ltb_lt in Ek.
  destruct (index_nth _ _ _ _ Hmap Hk) as [Hxk Hklen].
  destruct (index_nth _ _ _ _ Hmap Hr) as [Hri Hilen].
  destruct (index_nth _ _ _ _ Hmap Hr0) as [Hr00 H0len].
  assert (T = nthZ ts i) by congruence. assert (T0 = nthZ ts 0) by congruence.
  pose proof (sorted_nth ts Hs 0 k ltac:(lia) Hklen).
  pose proof (sorted_nth ts Hs k i ltac:(lia) Hilen).
  unfold in_window. rewrite Hxk. apply andb_true_intro.
  split; [apply Z.ltb_lt|apply Z.leb_le]; lia.
Qed.

Lemma rolling_mean_first_weeks_witness :
  exists pts,
    rolling_56D_mean (filter (on_day (Some "Sat")) sample_df) = inr pts /\
    nth_error pts 1
    = Some (1641600300000000000,
            mean (observed (durations (firstn 2 (filter (on_day (Some "Sat")) sample_df))))).
Proof.
  apply (rolling_mean_first_weeks sample_env "in.csv" initial_world sample_df
           initial_world (Some "Sat") 1 rec_sat1 rec_sat2 1641600300000000000
           1641000240000000000); reflexivity.
Defined.


